(** * The local API gateway of the wallet application

    A shallow embedding of [backend/handlers/handlers.go] (connection data,
    token gate, request dispatcher, handler registry, [/api/open],
    [/api/coins/convertFromFiat]) and of [frontends/qt/server/server.go]
    (self-signed certificate, PEM persistence, [serve]), followed by the
    properties established about them.

    Go code runs in a state monad with panics: a computation takes the
    state it may touch and returns how it completed together with the state
    it left behind. *)

From Stdlib Require Import ZArith String Ascii List Bool Lia.
From Stdlib Require Import Floats.SpecFloat DecimalString.
From stdpp Require Import base option gmap strings list.
From Equations Require Import Equations.

Local Open Scope Z_scope.
Local Open Scope string_scope.

(** ** Go runtime: completions, panics, [defer]/[recover] *)

Module GoRuntime.

(** A call either returns, or is still panicking when it leaves the
    function, or has ended the process ([os.Exit], as [log.Fatalf] does).
    The payload of a panic is the [%v] rendering of the (non-nil) panic
    value. *)
Inductive Completion (A : Type) : Type :=
| Done (a : A)
| Panicking (v : string)
| Exited (code : Z).
Arguments Done {A} a.
Arguments Panicking {A} v.
Arguments Exited {A} code.

Definition GoM (S A : Type) : Type := S -> Completion A * S.

Definition ret {S A} (a : A) : GoM S A := fun s => (Done a, s).

Definition bind {S A B} (m : GoM S A) (k : A -> GoM S B) : GoM S B :=
  fun s =>
    match m s with
    | (Done a, s') => k a s'
    | (Panicking v, s') => (Panicking v, s')
    | (Exited code, s') => (Exited code, s')
    end.

Definition exit {S A} (code : Z) : GoM S A := fun s => (Exited code, s).

Definition panic {S A} (v : string) : GoM S A := fun s => (Panicking v, s).

Definition modify {S} (f : S -> S) : GoM S unit := fun s => (Done tt, f s).

Definition gets {S A} (f : S -> A) : GoM S A := fun s => (Done (f s), s).

(** [defer func() { if r := recover(); r != nil { onPanic(r) } }()]
    around [body]: when [body] returns, [recover()] is nil and nothing
    happens; when it panics, the panic is stopped, [onPanic] runs, and the
    function then returns normally (unless [onPanic] panics itself).
    Deferred calls do not run when the process exits. *)
Definition deferRecover {S} (onPanic : string -> GoM S unit)
           (body : GoM S unit) : GoM S unit :=
  fun s =>
    match body s with
    | (Done tt, s') => (Done tt, s')
    | (Panicking v, s') => onPanic v s'
    | (Exited code, s') => (Exited code, s')
    end.

(** Running a computation on a part of the state. *)
Definition zoom {S T A} (get : S -> T) (set : T -> S -> S)
           (m : GoM T A) : GoM S A :=
  fun s =>
    match m (get s) with
    | (c, t') => (c, set t' s)
    end.

End GoRuntime.

Export GoRuntime.

Declare Scope go_scope.
Delimit Scope go_scope with go.
Notation "x <- c1 ;; c2" := (bind c1 (fun x => c2))
  (at level 100, c1 at next level, right associativity) : go_scope.
Notation "c1 ;; c2" := (bind c1 (fun _ => c2))
  (at level 100, right associativity) : go_scope.
Local Open Scope go_scope.

Definition newline : string := String (ascii_of_nat 10) EmptyString.

(** ** Values handed to the JSON encoder *)

(** The values a business function returns as [interface{}], as far as the
    gateway builds them itself. [VFunc] stands for the values
    [encoding/json] refuses. *)
Inductive Scalar : Type :=
| SBool (b : bool)
| SString (s : string).

Inductive GoValue : Type :=
| VNil
| VBool (b : bool)
| VString (s : string)
| VMapStr (kvs : list (string * string))        (* map[string]string *)
| VMap (kvs : list (string * Scalar))           (* map[string]interface{} *)
| VFunc (name : string).

(** ** Process-side effects *)

Inductive Level := LevelDebug | LevelError | LevelFatal | LevelInfo.

Record LogEntry := mkLog { logLevel : Level; logMessage : string }.

(** What a business function does that the properties below speak of,
    recorded in the order it happens. *)
Inductive Event : Type :=
| EvSystemOpen (url : string)     (* [system.Open(url)] *)
| EvFloatDiv (x y : spec_float).  (* a float64 division *)

(** What a transport handler hands the request to. *)
Inductive Invocation : Type :=
| Business (path : string)        (* [h(r)] of a dispatched route *)
| Upgrade (path : string)         (* [websocketUpgrader.Upgrade(w, r, nil)] *)
| RunWebsocket.                   (* [runWebsocket(conn, apiData, log)] *)

Record Sys := mkSys { logs : list LogEntry; events : list Event }.

Definition logAt {A} (proj : A -> Sys) (upd : Sys -> A -> A)
           (l : Level) (msg : string) : GoM A unit :=
  modify (fun a => upd (mkSys (logs (proj a) ++ [mkLog l msg]) (events (proj a))) a).

Definition emitAt {A} (proj : A -> Sys) (upd : Sys -> A -> A)
           (e : Event) : GoM A unit :=
  modify (fun a => upd (mkSys (logs (proj a)) (events (proj a) ++ [e])) a).

(** What a business function can touch: it receives the request only,
    never the response writer. *)
Definition Biz (A : Type) : Type := GoM Sys A.

Definition bizLog : Level -> string -> Biz unit := logAt id (fun s _ => s).
Definition bizEmit : Event -> Biz unit := emitAt id (fun s _ => s).

(** ** net/http *)

Module http.

Definition StatusOK : Z := 200.
Definition StatusUnauthorized : Z := 401.
Definition StatusSwitchingProtocols : Z := 101.

Record Request := mkRequest {
  Method : string;
  Path : string;                    (* r.URL.Path *)
  Header : gmap string string;      (* canonical key to value *)
  Query : gmap string string;       (* r.URL.Query() *)
  Body : string
}.

(** [Header.Get] and [Values.Get]: the empty string when the key is absent. *)
Definition Get (m : gmap string string) (key : string) : string :=
  default EmptyString (m !! key).

(** The response as a recorder sees it. [wroteHeader] is [None] until
    [WriteHeader] is called; the transport then sends [StatusOK]. *)
Record ResponseWriter := mkWriter {
  wHeader : gmap string string;
  wroteHeader : option Z;
  wBody : string
}.

Definition newWriter : ResponseWriter := mkWriter ∅ None EmptyString.

Definition statusCode (w : ResponseWriter) : Z := default StatusOK (wroteHeader w).

Definition setHeader (k v : string) (w : ResponseWriter) : ResponseWriter :=
  mkWriter (<[k:=v]> (wHeader w)) (wroteHeader w) (wBody w).

Definition WriteHeader (code : Z) (w : ResponseWriter) : ResponseWriter :=
  match wroteHeader w with
  | Some _ => w
  | None => mkWriter (wHeader w) (Some code) (wBody w)
  end.

Definition Write (data : string) (w : ResponseWriter) : ResponseWriter :=
  mkWriter (wHeader w) (wroteHeader w) (wBody w +:+ data).

(** [http.Error(w, msg, code)]. *)
Definition Error (msg : string) (code : Z) (w : ResponseWriter) : ResponseWriter :=
  Write (msg +:+ newline) (WriteHeader code
       (setHeader "X-Content-Type-Options" "nosniff"
          (setHeader "Content-Type" "text/plain; charset=utf-8" w))).

End http.

(** The state a transport handler runs in: its response writer, the
    process around it, and the record of what the request was handed to
    (which no business function can reach). *)
Record World := mkWorld {
  resp : http.ResponseWriter;
  sys : Sys;
  invoked : list Invocation
}.

Definition Srv (A : Type) : Type := GoM World A.

Definition onWriter (f : http.ResponseWriter -> http.ResponseWriter) : Srv unit :=
  modify (fun s => mkWorld (f (resp s)) (sys s) (invoked s)).

Definition srvLog : Level -> string -> Srv unit :=
  logAt sys (fun y s => mkWorld (resp s) y (invoked s)).

Definition invoke (i : Invocation) : Srv unit :=
  modify (fun s => mkWorld (resp s) (sys s) (invoked s ++ [i])).

Definition liftBiz {A} (m : Biz A) : Srv A :=
  zoom sys (fun y s => mkWorld (resp s) y (invoked s)) m.

(** [http.Handler] and the business functions the dispatcher wraps. *)
Definition Handler : Type := http.Request -> Srv unit.
Definition BusinessFn : Type := http.Request -> Biz (GoValue * option string).

(** [json.NewEncoder(w).Encode]: the bytes written for a value, or the
    encoder's error. *)
Definition Encoder : Type := GoValue -> string + string.

(** ** backend/handlers/handlers.go *)

Record ConnectionData := mkConnectionData {
  port : Z;
  token : string;
  devMode : bool
}.

Definition NewConnectionData (port : Z) (token : string) : ConnectionData :=
  {| port := port;
     token := token;
     devMode := (Z.of_nat (String.length token) =? 0)%Z |}.

Definition isDev (connectionData : ConnectionData) : bool :=
  (port connectionData =? -1)%Z || String.eqb (token connectionData) EmptyString.

Definition writeJSON (enc : Encoder) (value : GoValue) : Srv unit :=
  match enc value with
  | inl bytes => onWriter (http.Write bytes)
  | inr err => panic err
  end.

Definition errorBody (msg : string) : GoValue := VMapStr [("error", msg)].

Definition isAPITokenValid (r : http.Request) (apiData : ConnectionData) : Srv bool :=
  if devMode apiData then ret true
  else
    srvLog LevelDebug "Checking API token";;
    if (Z.of_nat (String.length (http.Get (http.Header r) "Authorization")) =? 0)%Z then
      srvLog LevelError "Missing token in API request. WARNING: this could be an attack on the API";;
      onWriter (http.Error ("missing token " +:+ http.Path r) http.StatusUnauthorized);;
      ret false
    else if negb (Z.of_nat (String.length (http.Get (http.Header r) "Authorization")) =? 0)%Z
            && negb (String.eqb (http.Get (http.Header r) "Authorization")
                                ("Basic " +:+ token apiData)) then
      srvLog LevelError "Incorrect token in API request. WARNING: this could be an attack on the API";;
      onWriter (http.Error "incorrect token" http.StatusUnauthorized);;
      ret false
    else ret true.

Definition ensureAPITokenValid (h : Handler) (apiData : ConnectionData) : Handler :=
  fun r =>
    ok <- isAPITokenValid r apiData;;
    if ok : bool then h r else ret tt.

Definition apiMiddleware (enc : Encoder) (devMode : bool) (h : BusinessFn) : Handler :=
  fun r =>
    deferRecover
      (fun v =>
         srvLog LevelError v;;
         writeJSON enc (errorBody v))
      (onWriter (http.setHeader "Content-Type" "text/json");;
       (if devMode
        then onWriter (http.setHeader "Access-Control-Allow-Origin" "http://localhost:8080")
        else ret tt);;
       invoke (Business (http.Path r));;
       res <- liftBiz (h r);;
       match res with
       | (_, Some err) =>
           srvLog LevelError "endpoint failed";;
           writeJSON enc (errorBody err)
       | (value, None) => writeJSON enc value
       end).

(** *** What the gateway takes from outside the package *)

Inductive UpgradeResult : Type :=
| Upgraded
| UpgradeFailed (status : Z) (statusText : string) (err : string).

(** Library and operating-system calls whose results the handlers only
    consume. *)
Record Platform := mkPlatform {
  jsonEncode : Encoder;                              (* json.NewEncoder(w).Encode *)
  jsonDecodeString : string -> string + string;      (* json.NewDecoder(r.Body).Decode(&url) *)
  DownloadsDir : string + string;                    (* utilConfig.DownloadsDir() *)
  systemOpen : string -> option string;              (* system.Open(url): its error *)
  ParseFloat : string -> spec_float + string;        (* strconv.ParseFloat(s, 64) *)
  websocketUpgrade : http.Request -> UpgradeResult   (* websocketUpgrader.Upgrade *)
}.

(** The business functions that only forward to the [Backend] interface or
    to other packages, and the rates table of the backend. *)
Record Backend := mkBackend {
  getQRCodeHandler : BusinessFn;
  getAppConfigHandler : BusinessFn;
  getDefaultConfigHandler : BusinessFn;
  postAppConfigHandler : BusinessFn;
  getUpdateHandler : BusinessFn;
  getVersionHandler : BusinessFn;
  getTestingHandler : BusinessFn;
  postAddAccountHandler : BusinessFn;
  getAccountsHandler : BusinessFn;
  getAccountsStatusHandler : BusinessFn;
  postRegisterTestKeystoreHandler : BusinessFn;
  postDeregisterTestKeystoreHandler : BusinessFn;
  getRatesHandler : BusinessFn;
  getConvertToFiatHandler : BusinessFn;
  getHeadersStatus : string -> BusinessFn;
  postCertsDownloadHandler : BusinessFn;
  postCertsCheckHandler : BusinessFn;
  getDevicesRegisteredHandler : BusinessFn;
  Rates : gmap string (gmap string spec_float)
}.

(** *** [/api/events] *)

Definition eventsHandler (p : Platform) : Handler :=
  fun r =>
    invoke (Upgrade (http.Path r));;
    match websocketUpgrade p r with
    | UpgradeFailed status statusText err =>
        onWriter (http.Error statusText status);;
        panic err
    | Upgraded =>
        onWriter (http.WriteHeader http.StatusSwitchingProtocols);;
        invoke RunWebsocket
    end.

(** *** Routes *)

(** A route of the mux router: its full path, the methods it was restricted
    to (none: every method) and its handler. *)
Record Route := mkRoute {
  routePath : string;
  routeMethods : list string;
  routeHandler : Handler
}.

Definition Methods (ms : list string) (rt : Route) : Route :=
  mkRoute (routePath rt) ms (routeHandler rt).

(** [getAPIRouter(subrouter)(path, f)], for the subrouter mounted at [prefix]. *)
Definition getAPIRouter (p : Platform) (connData : ConnectionData) (prefix : string)
  : string -> BusinessFn -> Route :=
  fun path f =>
    mkRoute (prefix +:+ path) []
            (ensureAPITokenValid (apiMiddleware (jsonEncode p) (isDev connData) f) connData).

(** [subrouter.HandleFunc(path, h)]. *)
Definition HandleFunc (prefix path : string) (h : Handler) : Route :=
  mkRoute (prefix +:+ path) [] h.

Definition routeMatches (r : http.Request) (rt : Route) : bool :=
  String.eqb (routePath rt) (http.Path r)
  && match routeMethods rt with
     | [] => true
     | ms => existsb (String.eqb (http.Method r)) ms
     end.

(** [Router.ServeHTTP]: the first matching route in registration order;
    405 when only the method mismatches, 404 otherwise. *)
Definition ServeHTTP (routes : list Route) : Handler :=
  fun r =>
    match find (routeMatches r) routes with
    | Some rt => routeHandler rt r
    | None =>
        if existsb (fun rt => String.eqb (routePath rt) (http.Path r)) routes
        then onWriter (http.WriteHeader 405)
        else onWriter (http.Error "404 page not found" 404)
    end.

(** *** regexp: the fragment the allow-list patterns are written in *)

Module regexp.

(** A pattern anchored at the start of the text: literal characters and
    optional literal groups [(...)?]. *)
Inductive Item : Type :=
| Chr (c : ascii)
| OptGroup (g : list ascii).

Definition metachars : list ascii := list_ascii_of_string "\.+*?()|[]{}^$".

Definition metachar (c : ascii) : bool := existsb (Ascii.eqb c) metachars.

(** [regexp.QuoteMeta]: a backslash before every metacharacter. *)
Fixpoint QuoteMeta (s : string) : string :=
  match s with
  | EmptyString => EmptyString
  | String c rest =>
      if metachar c then String "\" (String c (QuoteMeta rest))
      else String c (QuoteMeta rest)
  end.

(** Parsing what follows the leading [^]. [group] holds the characters of
    the group being read, last one first. Syntax outside the fragment is
    refused. *)
Fixpoint parseItems (group : option (list ascii)) (s : string) : option (list Item) :=
  match s with
  | EmptyString =>
      match group with
      | None => Some []
      | Some _ => None
      end
  | String c rest =>
      if Ascii.eqb c "\" then
        match rest with
        | EmptyString => None
        | String c' rest' =>
            if metachar c' then
              match group with
              | None => cons (Chr c') <$> parseItems None rest'
              | Some acc => parseItems (Some (c' :: acc)) rest'
              end
            else None
        end
      else
        match group with
        | None =>
            if Ascii.eqb c "(" then parseItems (Some []) rest
            else if metachar c then None
            else cons (Chr c) <$> parseItems None rest
        | Some acc =>
            if Ascii.eqb c ")" then
              match rest with
              | String "?" rest' => cons (OptGroup (rev acc)) <$> parseItems None rest'
              | _ => None
              end
            else if metachar c then None
            else parseItems (Some (c :: acc)) rest
        end
  end.

Definition Compile (pattern : string) : option (list Item) :=
  match pattern with
  | String "^" rest => parseItems None rest
  | _ => None
  end.

Fixpoint dropPrefix (g : list ascii) (s : string) : option string :=
  match g with
  | [] => Some s
  | c :: g' =>
      match s with
      | String c' s' => if Ascii.eqb c c' then dropPrefix g' s' else None
      | EmptyString => None
      end
  end.

(** [MatchString] of an anchored pattern: some prefix of the text matches. *)
Fixpoint MatchString (re : list Item) (s : string) : bool :=
  match re with
  | [] => true
  | Chr c :: re' =>
      match s with
      | String c' s' => Ascii.eqb c c' && MatchString re' s'
      | EmptyString => false
      end
  | OptGroup g :: re' =>
      match dropPrefix g s with
      | Some s' => MatchString re' s'
      | None => false
      end || MatchString re' s
  end.

End regexp.

(** *** [/api/open] *)

Definition whitelistedURLs : list string :=
  [ "https://shiftcrypto.ch/contact";
    "https://shiftcrypto.ch/shop";
    "https://shiftcrypto.ch/backup";
    "https://www.cryptocompare.com";
    "https://bitcoincore.org/en/2016/01/26/segwit-benefits/";
    "https://en.bitcoin.it/wiki/Bech32_adoption" ].

Definition fixedPatterns : list string :=
  [ "^https://blockstream\.info/(testnet/)?tx/";
    "^http://explorer\.litecointools\.com/tx/";
    "^https://insight\.litecore\.io/tx/";
    "^https://etherscan\.io/tx/";
    "^https://rinkeby\.etherscan\.io/tx/";
    "^https://ropsten\.etherscan\.io/tx/" ].

Definition whitelistedPatterns (downloadDir : string) : list string :=
  fixedPatterns ++ ["^" +:+ regexp.QuoteMeta downloadDir].

(** The second loop of [postOpenHandler]: [true] when a pattern matched
    (the loop then breaks). [regexp.MustCompile] panics on a pattern it
    cannot compile. *)
Fixpoint matchesAnyPattern (patterns : list string) (url : string) : Biz bool :=
  match patterns with
  | [] => ret false
  | pattern :: rest =>
      match regexp.Compile pattern with
      | None => panic ("regexp: Compile(" +:+ pattern +:+ ")")
      | Some re =>
          if regexp.MatchString re url then ret true
          else matchesAnyPattern rest url
      end
  end.

Definition postOpenHandler (p : Platform) : BusinessFn :=
  fun r =>
    match jsonDecodeString p (http.Body r) with
    | inr err => ret (VNil, Some err)
    | inl url =>
        let blocked := negb (existsb (String.eqb url) whitelistedURLs) in
        match DownloadsDir p with
        | inr err => ret (VNil, Some err)
        | inl downloadDir =>
            matched <- matchesAnyPattern (whitelistedPatterns downloadDir) url;;
            let blocked := blocked && negb matched in
            if blocked then ret (VNil, Some ("Blocked /open with url: " +:+ url))
            else
              bizEmit (EvSystemOpen url);;
              ret (VNil, systemOpen p url)
        end
    end.

(** *** strconv and float64 *)

Module strconv.

Definition decimal (n : N) : string := NilZero.string_of_uint (N.to_uint n).

Fixpoint zeros (n : nat) : string :=
  match n with
  | O => EmptyString
  | S k => String "0" (zeros k)
  end.

Definition padLeft (width : nat) (s : string) : string :=
  zeros (width - String.length s) +:+ s.

Definition roundHalfEven (num den : N) : N :=
  let q := (num / den)%N in
  let r := (num mod den)%N in
  if (den <? 2 * r)%N || ((2 * r =? den)%N && N.odd q) then (q + 1)%N else q.

(** [m * 2^e * 10^prec], rounded to the nearest integer, ties to even. *)
Definition scaled (prec : nat) (m : positive) (e : Z) : N :=
  let num := (Npos m * 10 ^ N.of_nat prec)%N in
  match e with
  | Z0 => num
  | Zpos k => (num * 2 ^ Npos k)%N
  | Zneg k => roundHalfEven num (2 ^ Npos k)%N
  end.

Definition fixed (prec : nat) (n : N) : string :=
  let unit := (10 ^ N.of_nat prec)%N in
  decimal (n / unit)%N
  +:+ match prec with
      | O => EmptyString
      | S _ => "." +:+ padLeft prec (decimal (n mod unit)%N)
      end.

(** [strconv.FormatFloat(x, 'f', prec, 64)]. *)
Definition FormatFloat_f (x : spec_float) (prec : nat) : string :=
  match x with
  | S754_nan => "NaN"
  | S754_infinity s => if s then "-Inf" else "+Inf"
  | S754_zero s => (if s then "-" else EmptyString) +:+ fixed prec 0
  | S754_finite s m e =>
      (if s then "-" else EmptyString) +:+ fixed prec (scaled prec m e)
  end.

End strconv.

(** The float64 literal [0.0], comparison [!=] and division [/]. *)
Definition f64_zero : spec_float := S754_zero false.
Definition f64_neq (x y : spec_float) : bool := negb (SFeqb x y).
Definition f64_div (x y : spec_float) : spec_float := SFdiv 53 1024 x y.

(** [rates[a][b]]: the zero value when either key is absent. *)
Definition rateAt (rates : gmap string (gmap string spec_float)) (a b : string) : spec_float :=
  match rates !! a with
  | Some inner => default f64_zero (inner !! b)
  | None => f64_zero
  end.

(** *** [/api/coins/convertFromFiat] *)

Definition getConvertFromFiatHandler (p : Platform) (backend : Backend) : BusinessFn :=
  fun r =>
    let from := http.Get (http.Query r) "from" in
    let to := http.Get (http.Query r) "to" in
    let amount := http.Get (http.Query r) "amount" in
    match ParseFloat p amount with
    | inr _ =>
        ret (VMap [("success", SBool false); ("errMsg", SString "invalid amount")], None)
    | inl amountAsFloat =>
        let rate := rateAt (Rates backend) to from in
        result <- (if f64_neq rate f64_zero
                   then bizEmit (EvFloatDiv amountAsFloat rate);;
                        ret (f64_div amountAsFloat rate)
                   else ret f64_zero);;
        ret (VMap [("success", SBool true);
                   ("amount", SString (strconv.FormatFloat_f result 8))], None)
    end.

(** *** The handler registry of [NewHandlers] *)

Inductive Family := AccountFamily | DeviceFamily.

(** Modelled from the spec: the sub-handler packages
    ([backend/coins/btc/handlers], [backend/devices/bitbox/handlers]) are
    not part of the sources at hand. A sub-handler owns the route subtree it
    was constructed on, and its [Init]/[Uninit] toggle whether an entity is
    attached; the routes stay mounted. *)
Record SubHandler := mkSubHandler {
  family : Family;
  mountedAt : string;
  attached : option string
}.

Inductive Lifecycle : Type :=
| InitCall (ref : nat) (entity : string)
| UninitCall (ref : nat).

(** The two maps the closures of [NewHandlers] share, the sub-handler
    objects constructed so far (a reference is the position in
    construction order) and the [Init]/[Uninit] calls made on them. *)
Record Registry := mkRegistry {
  accountHandlersMap : gmap string nat;
  deviceHandlersMap : gmap string nat;
  objects : list SubHandler;
  lifecycle : list Lifecycle
}.

Definition newRegistry : Registry := mkRegistry ∅ ∅ [] [].

Definition apiPrefix : string := "/api".

Definition accountPrefix (accountCode : string) : string :=
  apiPrefix +:+ "/account/" +:+ accountCode.

Definition devicePrefix (deviceID : string) : string :=
  apiPrefix +:+ "/devices/" +:+ deviceID.

(** The body runs under [handlersMapLock] from its first statement to its
    return, so calls take effect one after the other; a call is a function
    from the registry before it to the registry after it. *)
Definition getAccountHandlers (accountCode : string) (reg : Registry) : nat * Registry :=
  match accountHandlersMap reg !! accountCode with
  | Some accHandlers => (accHandlers, reg)
  | None =>
      let accHandlers := length (objects reg) in
      (accHandlers,
       mkRegistry (<[accountCode := accHandlers]> (accountHandlersMap reg))
                  (deviceHandlersMap reg)
                  (objects reg ++ [mkSubHandler AccountFamily (accountPrefix accountCode) None])
                  (lifecycle reg))
  end.

Definition getDeviceHandlers (deviceID : string) (reg : Registry) : nat * Registry :=
  match deviceHandlersMap reg !! deviceID with
  | Some devHandlers => (devHandlers, reg)
  | None =>
      let devHandlers := length (objects reg) in
      (devHandlers,
       mkRegistry (accountHandlersMap reg)
                  (<[deviceID := devHandlers]> (deviceHandlersMap reg))
                  (objects reg ++ [mkSubHandler DeviceFamily (devicePrefix deviceID) None])
                  (lifecycle reg))
  end.

Definition Init (ref : nat) (entity : string) (reg : Registry) : Registry :=
  mkRegistry (accountHandlersMap reg) (deviceHandlersMap reg)
             (alter (fun h => mkSubHandler (family h) (mountedAt h) (Some entity)) ref (objects reg))
             (lifecycle reg ++ [InitCall ref entity]).

Definition Uninit (ref : nat) (reg : Registry) : Registry :=
  mkRegistry (accountHandlersMap reg) (deviceHandlersMap reg)
             (alter (fun h => mkSubHandler (family h) (mountedAt h) None) ref (objects reg))
             (lifecycle reg ++ [UninitCall ref]).

Inductive DeviceType := BitBoxDevice | OtherDevice.

Record Device := mkDevice { Identifier : string; deviceType : DeviceType }.

(** The callbacks registered with [OnAccountInit], [OnAccountUninit],
    [OnDeviceInit] and [OnDeviceUninit]; an account is known by its code. *)
Definition onAccountInit (code : string) (reg : Registry) : Registry :=
  let '(h, reg1) := getAccountHandlers code reg in Init h code reg1.

Definition onAccountUninit (code : string) (reg : Registry) : Registry :=
  let '(h, reg1) := getAccountHandlers code reg in Uninit h reg1.

Definition onDeviceInit (device : Device) (reg : Registry) : Registry :=
  match deviceType device with
  | BitBoxDevice =>
      let '(h, reg1) := getDeviceHandlers (Identifier device) reg in
      Init h (Identifier device) reg1
  | OtherDevice => reg
  end.

Definition onDeviceUninit (deviceID : string) (reg : Registry) : Registry :=
  let '(h, reg1) := getDeviceHandlers deviceID reg in Uninit h reg1.

(** Modelled from the spec: [locker.Locker] (util/locker) is not part of
    the sources at hand. Its [Lock()] acquires the mutual-exclusion lock of
    the registry and returns the function that releases it; deferred at the
    first statement, it makes each lookup-or-create one indivisible step.
    Everything that reaches the registry is listed here, and runs in the
    order the lock admits it. *)
Inductive RegistryCall : Type :=
| CallGetAccountHandlers (accountCode : string)
| CallGetDeviceHandlers (deviceID : string)
| AccountInit (code : string)
| AccountUninit (code : string)
| DeviceInit (device : Device)
| DeviceUninit (deviceID : string).

(** The key a call resolves, if it resolves one. *)
Definition resolves (c : RegistryCall) : option (Family * string) :=
  match c with
  | CallGetAccountHandlers k | AccountInit k | AccountUninit k => Some (AccountFamily, k)
  | CallGetDeviceHandlers k | DeviceUninit k => Some (DeviceFamily, k)
  | DeviceInit d =>
      match deviceType d with
      | BitBoxDevice => Some (DeviceFamily, Identifier d)
      | OtherDevice => None
      end
  end.

Definition getHandlers (fk : Family * string) (reg : Registry) : nat * Registry :=
  match fk with
  | (AccountFamily, k) => getAccountHandlers k reg
  | (DeviceFamily, k) => getDeviceHandlers k reg
  end.

Definition stepRegistry (c : RegistryCall) (reg : Registry) : Registry :=
  match c with
  | CallGetAccountHandlers k => snd (getAccountHandlers k reg)
  | CallGetDeviceHandlers k => snd (getDeviceHandlers k reg)
  | AccountInit k => onAccountInit k reg
  | AccountUninit k => onAccountUninit k reg
  | DeviceInit d => onDeviceInit d reg
  | DeviceUninit k => onDeviceUninit k reg
  end.

(** Runs the calls in order; next to the final registry, the reference each
    resolving call obtained. *)
Fixpoint runRegistry (cs : list RegistryCall) (reg : Registry)
  : list (Family * string * nat) * Registry :=
  match cs with
  | [] => ([], reg)
  | c :: rest =>
      let obtained :=
        match resolves c with
        | Some fk => [(fk, fst (getHandlers fk reg))]
        | None => []
        end in
      let '(more, final) := runRegistry rest (stepRegistry c reg) in
      ((obtained ++ more)%list, final)
  end.

Definition handlersMap (f : Family) (reg : Registry) : gmap string nat :=
  match f with
  | AccountFamily => accountHandlersMap reg
  | DeviceFamily => deviceHandlersMap reg
  end.

Definition prefixOf (f : Family) (key : string) : string :=
  match f with
  | AccountFamily => accountPrefix key
  | DeviceFamily => devicePrefix key
  end.

Definition Family_eqb (a b : Family) : bool :=
  match a, b with
  | AccountFamily, AccountFamily | DeviceFamily, DeviceFamily => true
  | _, _ => false
  end.

Definition constructedFor (f : Family) (key : string) (h : SubHandler) : bool :=
  Family_eqb (family h) f && String.eqb (mountedAt h) (prefixOf f key).

(** How many sub-handlers (and with them route subtrees) were constructed
    for a key. *)
Definition constructions (f : Family) (key : string) (reg : Registry) : nat :=
  length (filter (fun h => constructedFor f key h = true) (objects reg)).

(** *** [NewHandlers] *)

Record Handlers := mkHandlers {
  Router : list Route;
  apiData : ConnectionData;
  registry : Registry
}.

Definition NewHandlers (p : Platform) (backend : Backend) (connData : ConnectionData)
  : Handlers :=
  let apiRouter := getAPIRouter p connData apiPrefix in
  let devicesRouter := getAPIRouter p connData (apiPrefix +:+ "/devices") in
  mkHandlers
    [ Methods ["GET"] (apiRouter "/qr" (getQRCodeHandler backend));
      Methods ["GET"] (apiRouter "/config" (getAppConfigHandler backend));
      Methods ["GET"] (apiRouter "/config/default" (getDefaultConfigHandler backend));
      Methods ["POST"] (apiRouter "/config" (postAppConfigHandler backend));
      Methods ["POST"] (apiRouter "/open" (postOpenHandler p));
      Methods ["GET"] (apiRouter "/update" (getUpdateHandler backend));
      Methods ["GET"] (apiRouter "/version" (getVersionHandler backend));
      Methods ["GET"] (apiRouter "/testing" (getTestingHandler backend));
      Methods ["POST"] (apiRouter "/account-add" (postAddAccountHandler backend));
      Methods ["GET"] (apiRouter "/accounts" (getAccountsHandler backend));
      Methods ["GET"] (apiRouter "/accounts-status" (getAccountsStatusHandler backend));
      Methods ["POST"] (apiRouter "/test/register" (postRegisterTestKeystoreHandler backend));
      Methods ["POST"] (apiRouter "/test/deregister" (postDeregisterTestKeystoreHandler backend));
      Methods ["GET"] (apiRouter "/rates" (getRatesHandler backend));
      Methods ["GET"] (apiRouter "/coins/convertToFiat" (getConvertToFiatHandler backend));
      Methods ["GET"] (apiRouter "/coins/convertFromFiat" (getConvertFromFiatHandler p backend));
      Methods ["GET"] (apiRouter "/coins/tltc/headers/status" (getHeadersStatus backend "tltc"));
      Methods ["GET"] (apiRouter "/coins/tbtc/headers/status" (getHeadersStatus backend "tbtc"));
      Methods ["GET"] (apiRouter "/coins/ltc/headers/status" (getHeadersStatus backend "ltc"));
      Methods ["GET"] (apiRouter "/coins/btc/headers/status" (getHeadersStatus backend "btc"));
      Methods ["POST"] (apiRouter "/certs/download" (postCertsDownloadHandler backend));
      Methods ["POST"] (apiRouter "/certs/check" (postCertsCheckHandler backend));
      Methods ["GET"] (devicesRouter "/registered" (getDevicesRegisteredHandler backend));
      HandleFunc apiPrefix "/events" (eventsHandler p) ]
    connData
    newRegistry.

(** Serving one request on a fresh response writer. *)
Definition serveRequest (h : Handler) (r : http.Request) (s : Sys)
  : Completion unit * World :=
  h r (mkWorld http.newWriter s []).

(** ** frontends/qt/server/server.go *)

Module server.

Definition rsaBits : Z := 2048.
Definition tlsServerCertificate : string := "config/server.pem".

(** *** time *)

(** What a location's [lookup] tells of an instant: the offset in force
    then, in seconds east of UTC, and the instants between which that offset
    is in force ([zoneStart] included, [zoneEnd] not). *)
Record Zone := mkZone { zoneOffset : Z; zoneStart : Z; zoneEnd : Z }.

(** A location: its [lookup], from seconds since the Unix epoch. The
    location of [time.Now()] is [time.Local], whose offset changes with
    daylight saving time. *)
Record Location := mkLocation { zoneLookup : Z -> Zone }.

(** [time.FixedZone]: one offset at every instant. *)
Definition FixedZone (offset : Z) : Location :=
  mkLocation (fun _ => mkZone offset (- 2 ^ 63) (2 ^ 63 - 1)).

(** An instant (seconds and nanoseconds since the Unix epoch) read in a
    location. *)
Record Time := mkTime { unixSec : Z; nsec : Z; loc : Location }.

Definition secondsPerDay : Z := 86400.

(** The offset in force at [t] in its location. *)
Definition offsetAt (t : Time) : Z := zoneOffset (zoneLookup (loc t) (unixSec t)).

(** The calendar day and the clock reading [t.Date()] and [t.Clock()]
    are computed from: the seconds since the epoch of the wall clock at
    [t], split into days and seconds of the day. *)
Definition localDay (t : Time) : Z := (unixSec t + offsetAt t) / secondsPerDay.
Definition localClock (t : Time) : Z := (unixSec t + offsetAt t) mod secondsPerDay.

(** The offset [time.Date] takes off a wall-clock reading [unix] (in
    seconds) to get the instant: the one [lookup] gives for [unix] taken as
    an instant, unless the instant this leads to lies outside the zone
    found; then the one in force at that instant. *)
Definition dateOffset (l : Location) (unix : Z) : Z :=
  let z := zoneLookup l unix in
  if (zoneOffset z =? 0)%Z then 0
  else
    let utc := unix - zoneOffset z in
    if (utc <? zoneStart z)%Z || (zoneEnd z <=? utc)%Z
    then zoneOffset (zoneLookup l utc)
    else zoneOffset z.

(** [time.Date] of a calendar day (counted from the epoch) and a clock
    reading (in seconds of the day) in a location. *)
Definition Date (day clock nanos : Z) (l : Location) : Time :=
  let unix := day * secondsPerDay + clock in
  mkTime (unix - dateOffset l unix) nanos l.

(** [t.AddDate(0, 0, days)]: [time.Date] of the calendar day of [t] plus
    [days] and the clock reading of [t], in the location of [t]. *)
Definition AddDays (days : Z) (t : Time) : Time :=
  Date (localDay t + days) (localClock t) (nsec t) (loc t).


(** *** crypto/rsa, crypto/x509, net *)

Record PrivateKey := mkPrivateKey { keyBits : Z; keyId : Z }.
Record PublicKey := mkPublicKey { pubBits : Z; pubId : Z }.

Definition Public (k : PrivateKey) : PublicKey := mkPublicKey (keyBits k) (keyId k).

Record Name := mkName {
  Country : list string;
  Organization : list string;
  OrganizationalUnit : list string
}.

Inductive KeyUsage := KeyUsageKeyEncipherment | KeyUsageDigitalSignature | KeyUsageCertSign.
Inductive ExtKeyUsage := ExtKeyUsageServerAuth.

(** An IP address in its 16-byte form. *)
Definition IP : Type := list Z.

Definition IPv4 (a b c d : Z) : IP := [0; 0; 0; 0; 0; 0; 0; 0; 0; 0; 255; 255; a; b; c; d].

(** [net.ParseIP("::1")]. *)
Definition ParseIP_loopback6 : IP := [0; 0; 0; 0; 0; 0; 0; 0; 0; 0; 0; 0; 0; 0; 0; 1].

(** The fields of [x509.Certificate] the server sets, and the ones a
    created certificate carries besides. *)
Record Certificate := mkCertificate {
  SerialNumber : Z;
  Subject : Name;
  Issuer : Name;
  NotBefore : Time;
  NotAfter : Time;
  KeyUsages : list KeyUsage;
  ExtKeyUsages : list ExtKeyUsage;
  BasicConstraintsValid : bool;
  IPAddresses : list IP;
  DNSNames : list string;
  EmailAddresses : list string;
  URIs : list string;
  IsCA : bool;
  CertPublicKey : option PublicKey;
  SignedBy : option PublicKey
}.

Definition emptyName : Name := mkName [] [] [].

(** [x509.CreateCertificate(rand, template, parent, pub, priv)], when it
    succeeds: the certificate states the template's fields, the parent's
    subject as issuer and [pub] as its key, and is signed with [priv]. *)
Definition CreateCertificate (template parent : Certificate)
           (pub : PublicKey) (priv : PrivateKey) : Certificate :=
  mkCertificate (SerialNumber template) (Subject template) (Subject parent)
                (NotBefore template) (NotAfter template)
                (KeyUsages template) (ExtKeyUsages template)
                (BasicConstraintsValid template)
                (IPAddresses template) (DNSNames template)
                (EmailAddresses template) (URIs template) (IsCA template)
                (Some pub) (Some (Public priv)).

Record PemBlock := mkPemBlock { pemType : string; pemBytes : Certificate }.

(** *** The process and what it asks of the operating system *)

Record OS := mkOS {
  FreePort : Z + string;                     (* freeport.FreePort() *)
  GenerateKey : Z -> PrivateKey + string;    (* rsa.GenerateKey(rand.Reader, bits) *)
  Now : Time;                                (* time.Now() *)
  signingError : option string;              (* the error of x509.CreateCertificate *)
  MkdirAll : string -> option string;        (* os.MkdirAll *)
  Create : string -> option string;          (* os.Create *)
  pemEncode : string -> option string;       (* pem.Encode, by file name *)
  fileClose : string -> option string;       (* pemFile.Close() *)
  Listen : string -> option string;          (* net.Listen("tcp", addr) *)
  Serve : string -> option string            (* the error server.Serve comes back
                                                with; None while it serves *)
}.

Record Serving := mkServing {
  servingAddr : string;
  servingCertificate : Certificate;
  servingKey : PrivateKey;
  servingHandler : list Route
}.

(** The process: its log, the file system as it has changed it, the
    goroutines started with a [go] statement (each by the variables its
    function literal captures) and the server a goroutine has brought up. *)
Record Process := mkProcess {
  plog : list LogEntry;
  directories : list string;
  files : gmap string (option PemBlock);     (* created files and what was written *)
  serving : option Serving;
  goroutines : list Serving
}.

Definition newProcess : Process := mkProcess [] [] ∅ None [].

Definition Proc (A : Type) : Type := GoM Process A.

Definition logPrintln (msg : string) : Proc unit :=
  modify (fun s => mkProcess (plog s ++ [mkLog LevelInfo msg]) (directories s) (files s) (serving s) (goroutines s)).

(** [log.Fatalf] and [log.Fatal]: the message, then [os.Exit(1)]. *)
Definition logFatalf {A} (msg : string) : Proc A :=
  modify (fun s => mkProcess (plog s ++ [mkLog LevelFatal msg]) (directories s) (files s) (serving s) (goroutines s));;
  exit 1.

Definition addDirectory (dir : string) : Proc unit :=
  modify (fun s => mkProcess (plog s) (directories s ++ [dir]) (files s) (serving s) (goroutines s)).

Definition setFile (name : string) (content : option PemBlock) : Proc unit :=
  modify (fun s => mkProcess (plog s) (directories s) (<[name := content]> (files s)) (serving s) (goroutines s)).

Definition startServing (sv : Serving) : Proc unit :=
  modify (fun s => mkProcess (plog s) (directories s) (files s) (Some sv) (goroutines s)).

(** The [go] statement: the goroutine is started and the caller goes on at
    once, whatever the goroutine does and whenever it does it. *)
Definition goFunc (sv : Serving) : Proc unit :=
  modify (fun s => mkProcess (plog s) (directories s) (files s) (serving s)
                             (goroutines s ++ [sv])).

(** [filepath.Dir] of a clean slash-separated path: what precedes the last
    separator, or [.] when there is none. *)
Fixpoint dirOf (s : string) : option string :=
  match s with
  | EmptyString => None
  | String c rest =>
      match dirOf rest with
      | Some d => Some (String c d)
      | None => if Ascii.eqb c "/" then Some EmptyString else None
      end
  end.

Definition filepath_Dir (name : string) : string :=
  match dirOf name with
  | Some EmptyString => "/"
  | Some d => d
  | None => "."
  end.

Definition itoa (z : Z) : string := NilZero.string_of_int (Z.to_int z).

(** *** The functions of server.go *)

Definition generateRSAPrivateKey (os : OS) : Proc PrivateKey :=
  match GenerateKey os rsaBits with
  | inr err => logFatalf ("Failed to create private key: " +:+ err)
  | inl privateKey => ret privateKey
  end.

Definition createSelfSignedCertificate (os : OS) (privateKey : PrivateKey)
  : Proc Certificate :=
  let serialNumber := 0 in
  let notBefore := Now os in
  let notAfter := AddDays 1 notBefore in
  let template :=
    mkCertificate serialNumber
                  (mkName ["CH"] ["Shift Cryptosecurity"] ["godbb"])
                  emptyName
                  notBefore notAfter
                  [KeyUsageKeyEncipherment; KeyUsageDigitalSignature; KeyUsageCertSign]
                  [ExtKeyUsageServerAuth]
                  true
                  [IPv4 127 0 0 1; ParseIP_loopback6]
                  ["localhost"]
                  [] []
                  true
                  None None in
  match signingError os with
  | Some err => logFatalf ("Failed to create certificate: " +:+ err)
  | None => ret (CreateCertificate template template (Public privateKey) privateKey)
  end.

Definition saveAsPEM (os : OS) (name : string) (pemBytes : PemBlock)
  : Proc (option string) :=
  let certificateDir := filepath_Dir name in
  match MkdirAll os certificateDir with
  | Some err =>
      logFatalf ("failed to create directory " +:+ certificateDir +:+ ": " +:+ err)
  | None =>
      addDirectory certificateDir;;
      match Create os name with
      | Some err => logFatalf ("failed to open " +:+ name +:+ " for writing: " +:+ err)
      | None =>
          setFile name None;;
          match pemEncode os name with
          | Some err =>
              logFatalf ("failed to write PEM encoded file " +:+ name +:+ ": " +:+ err)
          | None =>
              setFile name (Some pemBytes);;
              match fileClose os name with
              | Some err =>
                  logFatalf ("failed to close PEM file " +:+ name +:+ ": " +:+ err)
              | None => ret None
              end
          end
      end
  end.

Definition derToPem (pemType : string) (pemBytes : Certificate) : PemBlock :=
  mkPemBlock pemType pemBytes.

(** The function literal of the [go] statement in [serve], with the
    variables it captures in [sv]: it listens and, with the listener,
    serves. [server.Serve] comes back only with an error, which ends the
    process as a failure to listen does; while it serves, the goroutine
    stays in it. *)
Definition listenAndServe (os : OS) (sv : Serving) : Proc unit :=
  match Listen os (servingAddr sv) with
  | Some err => logFatalf err
  | None =>
      startServing sv;;
      match Serve os (servingAddr sv) with
      | Some err => logFatalf err
      | None => ret tt
      end
  end.

(** [serve]. It starts the goroutine that listens and serves and returns
    the port without waiting for it: whether [net.Listen] succeeds is not
    known to [serve]. *)
Definition serve (os : OS) (newHandlers : Z -> list Route) : Proc Z :=
  match FreePort os with
  | inr err => logFatalf err
  | inl port =>
      logPrintln ("Port: " +:+ itoa port);;
      let handlers := newHandlers port in
      privateKey <- generateRSAPrivateKey os;;
      certificate <- createSelfSignedCertificate os privateKey;;
      let certificatePEM := derToPem "CERTIFICATE" certificate in
      _ <- saveAsPEM os tlsServerCertificate certificatePEM;;
      let addr := "localhost:" +:+ itoa port in
      goFunc (mkServing addr certificate privateKey handlers);;
      ret port
  end.

End server.

Import server.

(** ** The business functions of handlers.go that use the backend *)

Module api.

(** A coin as [backend.Coin] returns it: one of the BTC family, with what
    its [Headers().Status()] returns, or a coin of another Go type. *)
Inductive CoinValue : Type :=
| BtcCoin (code : string) (headersStatus : GoValue * option string)
| OtherCoin (code : string) (goType : string).

Definition coinCode (c : CoinValue) : string :=
  match c with
  | BtcCoin code _ => code
  | OtherCoin code _ => code
  end.

(** An extended key as [hdkeychain.NewKeyFromString] returns it. *)
Record ExtendedKey := mkExtendedKey {
  keyVersion : list Z;
  keyIsPrivate : bool;
  keySerialized : string
}.

(** What the handlers ask of the backend and of the packages around it;
    the results are consumed, not computed, here. *)
Record Queries := mkQueries {
  Testing : bool;                                              (* backend.Testing() *)
  Coin : string -> CoinValue + string;                         (* backend.Coin(code) *)
  DownloadCert : string -> string + string;                    (* backend.DownloadCert *)
  CheckElectrumServer : string -> string -> option string;     (* its error *)
  decodeMap : string -> gmap string string + string;           (* Decode(&jsonBody) *)
  decodeServer : string -> (string * string) + string;         (* Decode(&server): Server, PEMCert *)
  DecodeScriptType : string -> string + string;                (* signing.DecodeScriptType *)
  NewKeyFromString : string -> ExtendedKey + string;           (* hdkeychain.NewKeyFromString *)
  XPubVersionForScriptType : string -> string -> list Z;       (* btc.XPubVersionForScriptType *)
  IsForNet : ExtendedKey -> list Z -> bool;                    (* key.IsForNet(net), by HDPublicKeyID *)
  configurationHash : string -> ExtendedKey -> string          (* configuration.Hash() *)
}.

(** The calls on the backend that change it, in the order they are made. *)
Inductive BackendCall : Type :=
| RegisterTestKeystore (pin : string)
| DeregisterKeystore
| CreateAndAddAccount (coin : CoinValue) (code name : string)
                      (scriptType : string) (xpub : ExtendedKey).

(** A business function that calls on the backend. *)
Definition BackendFn : Type :=
  http.Request -> GoM (list BackendCall) (GoValue * option string).

Definition call (c : BackendCall) : GoM (list BackendCall) unit :=
  modify (fun calls => (calls ++ [c])%list).

(** [jsonBody[key]]: the empty string when the key is absent. *)
Definition field (jsonBody : gmap string string) (key : string) : string :=
  default EmptyString (jsonBody !! key).

Definition failure (errorCode : string) : GoValue :=
  VMap [("success", SBool false); ("errorCode", SString errorCode)].

Definition postAddAccountHandler (q : Queries) : BackendFn :=
  fun r =>
    match decodeMap q (http.Body r) with
    | inr err => ret (VNil, Some err)
    | inl jsonBody =>
        let jsonCoinCode := field jsonBody "coinCode" in
        let jsonScriptType := field jsonBody "scriptType" in
        let jsonAccountName := field jsonBody "accountName" in
        let jsonExtendedPublicKey := field jsonBody "extendedPublicKey" in
        match Coin q jsonCoinCode with
        | inr err => ret (VNil, Some err)
        | inl coin =>
            match DecodeScriptType q jsonScriptType with
            | inr err => ret (VNil, Some err)
            | inl scriptType =>
                match NewKeyFromString q jsonExtendedPublicKey with
                | inr _ => ret (failure "xpubInvalid", None)
                | inl extendedPublicKey =>
                    if keyIsPrivate extendedPublicKey
                    then ret (failure "xprivEntered", None)
                    else if match coin with
                            | BtcCoin code _ =>
                                negb (IsForNet q extendedPublicKey
                                               (XPubVersionForScriptType q code scriptType))
                            | OtherCoin _ _ => false
                            end
                    then ret (failure "xpubWrongNet", None)
                    else
                      let accountCode :=
                        configurationHash q scriptType extendedPublicKey
                        +:+ "-" +:+ coinCode coin in
                      call (CreateAndAddAccount coin accountCode jsonAccountName
                                                scriptType extendedPublicKey);;
                      ret (VMap [("success", SBool true);
                                 ("accountCode", SString accountCode)], None)
                end
            end
        end
    end.

Definition postRegisterTestKeystoreHandler (q : Queries) : BackendFn :=
  fun r =>
    if negb (Testing q) then ret (VNil, Some "Test keystore not available")
    else
      match decodeMap q (http.Body r) with
      | inr err => ret (VNil, Some err)
      | inl jsonBody =>
          let pin := field jsonBody "pin" in
          call (RegisterTestKeystore pin);;
          ret (VBool true, None)
      end.

Definition postDeregisterTestKeystoreHandler (q : Queries) : BackendFn :=
  fun _ =>
    call DeregisterKeystore;;
    ret (VBool true, None).

Definition f64_mul (x y : spec_float) : spec_float := SFmul 53 1024 x y.

Definition getConvertToFiatHandler (p : Platform)
           (rates : gmap string (gmap string spec_float)) : BusinessFn :=
  fun r =>
    let from := http.Get (http.Query r) "from" in
    let to := http.Get (http.Query r) "to" in
    let amount := http.Get (http.Query r) "amount" in
    match ParseFloat p amount with
    | inr _ =>
        ret (VMap [("success", SBool false); ("errMsg", SString "invalid amount")], None)
    | inl amountAsFloat =>
        let rate := rateAt rates from to in
        ret (VMap [("success", SBool true);
                   ("fiatAmount",
                    SString (strconv.FormatFloat_f (f64_mul amountAsFloat rate) 2))], None)
    end.

(** The type assertion of the coin to the BTC coin type panics on a coin of
    another type, with the runtime's message. *)
Definition getHeadersStatus (q : Queries) (coinCode : string) : BusinessFn :=
  fun _ =>
    match Coin q coinCode with
    | inr err => ret (VNil, Some err)
    | inl (BtcCoin _ status) => ret status
    | inl (OtherCoin _ goType) =>
        panic ("interface conversion: coin.Coin is " +:+ goType +:+ ", not *btc.Coin")
    end.

Definition postCertsDownloadHandler (p : Platform) (q : Queries) : BusinessFn :=
  fun r =>
    match jsonDecodeString p (http.Body r) with
    | inr err => ret (VNil, Some err)
    | inl server =>
        match DownloadCert q server with
        | inr err =>
            ret (VMap [("success", SBool false); ("errorMessage", SString err)], None)
        | inl pemCert =>
            ret (VMap [("success", SBool true); ("pemCert", SString pemCert)], None)
        end
    end.

Definition postCertsCheckHandler (q : Queries) : BusinessFn :=
  fun r =>
    match decodeServer q (http.Body r) with
    | inr err => ret (VNil, Some err)
    | inl (server, pemCert) =>
        match CheckElectrumServer q server pemCert with
        | Some err =>
            ret (VMap [("success", SBool false); ("errorMessage", SString err)], None)
        | None => ret (VMap [("success", SBool true)], None)
        end
    end.

End api.

(** ** frontends/web: the fiat store and number formatting (rates.tsx) *)

Module ratesStore.

(** A fiat code as the store holds it: a string, or [undefined]. *)
Inductive Value : Type :=
| Str (s : string)
| Undefined.

#[global] Instance Value_eq_dec : EqDecision Value.
Proof. solve_decision. Defined.

(** Strict equality, as [indexOf] and [includes] use it on these values. *)
Definition sameValue (a b : Value) : bool := bool_decide (a = b).

Record SharedProps := mkSharedProps {
  rates : option (gmap string (gmap string spec_float));
  active : Value;
  selected : list Value
}.

(** What leaves the store: the configuration written and the endpoints
    posted to. *)
Inductive Effect : Type :=
| SetConfigMainFiat (fiat : Value)
| SetConfigFiatList (fiatList : list Value)
| ApiPost (endpoint : string).

(** The store, the effects so far, and the [selected] lists that wait in a
    [.then] for their [setConfig] to resolve. *)
Record Frontend := mkFrontend {
  state : SharedProps;
  effects : list Effect;
  pending : list (list Value)
}.

Definition setActive (fiat : Value) (st : SharedProps) : SharedProps :=
  mkSharedProps (rates st) fiat (selected st).

Definition setSelected (l : list Value) (st : SharedProps) : SharedProps :=
  mkSharedProps (rates st) (active st) l.

(** [Array.prototype.indexOf]: -1 when absent. *)
Fixpoint indexOf (l : list Value) (x : Value) : Z :=
  match l with
  | [] => -1
  | y :: rest =>
      if sameValue y x then 0
      else let i := indexOf rest x in
           if (i <? 0)%Z then -1 else i + 1
  end.

Definition includes (l : list Value) (x : Value) : bool := existsb (sameValue x) l.

(** [a % n] for a non-negative [a]: NaN ([None]) when [n] is 0. *)
Definition remainder (a : Z) (n : nat) : option nat :=
  match n with
  | O => None
  | S _ => Some (Z.to_nat (a mod Z.of_nat n))
  end.

(** [l[i]]: [undefined] out of range and for NaN. *)
Definition element (l : list Value) (i : option nat) : Value :=
  match i with
  | Some n => default Undefined (l !! n)
  | None => Undefined
  end.

Definition selectFiat (fiat : Value) (fe : Frontend) : Frontend :=
  let selected := (selected (state fe) ++ [fiat])%list in
  mkFrontend (state fe)
             (effects fe ++ [SetConfigFiatList selected])
             (pending fe ++ [selected]).

(** [equal] comes from utils/equal and is taken as given. *)
Definition unselectFiat (equal : Value -> Value -> bool) (fiat : Value) (fe : Frontend)
  : Frontend :=
  let selected := List.filter (fun item => negb (equal item fiat)) (selected (state fe)) in
  mkFrontend (state fe)
             (effects fe ++ [SetConfigFiatList selected])
             (pending fe ++ [selected]).

(** The [setConfig] of the waiting list at position [i] resolves: its
    [.then] sets [selected] and posts the reinitialization. *)
Definition resolve (i : nat) (fe : Frontend) : Frontend :=
  match pending fe !! i with
  | Some selected =>
      mkFrontend (setSelected selected (state fe))
                 (effects fe ++ [ApiPost "accounts/reinitialize"])
                 (delete i (pending fe))
  | None => fe
  end.

Definition setActiveFiat (fiat : Value) (fe : Frontend) : Frontend :=
  let fe1 := if negb (includes (selected (state fe)) fiat) then selectFiat fiat fe else fe in
  mkFrontend (setActive fiat (state fe1))
             (effects fe1 ++ [SetConfigMainFiat fiat])
             (pending fe1).

Definition rotateFiat (fe : Frontend) : Frontend :=
  let index := indexOf (selected (state fe)) (active (state fe)) in
  let fiat := element (selected (state fe))
                      (remainder (index + 1) (length (selected (state fe)))) in
  setActiveFiat fiat fe.

(** [String.prototype.indexOf] for one character: -1 when absent. *)
Fixpoint indexOfChar (c : ascii) (s : list ascii) : Z :=
  match s with
  | [] => -1
  | x :: rest =>
      if Ascii.eqb x c then 0
      else let i := indexOfChar c rest in
           if (i <? 0)%Z then -1 else i + 1
  end.

Definition apostrophe : ascii := "'"%char.

(** The [while (position > 0)] loop of [formatNumber], on the characters
    of [formatted]. *)
Equations? insertSeparators (formatted : list ascii) (position : Z) : list ascii
  by wf (Z.to_nat position) lt :=
  insertSeparators formatted position with Z_lt_dec 0 position := {
    | left _ =>
        insertSeparators
          (take (Z.to_nat position) formatted
           ++ apostrophe :: drop (Z.to_nat position) formatted)%list
          (position - 3);
    | right _ => formatted
  }.
Proof. lia. Qed.

(** [formatNumber(amount)], given [amount.toFixed(2)]. *)
Definition formatNumber {A} (toFixed2 : A -> list ascii) (amount : A) : list ascii :=
  let formatted := toFixed2 amount in
  let position := indexOfChar "." formatted - 3 in
  insertSeparators formatted position.

(** The test of [Conversion] for a testnet coin, and the coin whose rates
    are looked up. *)
Definition mainnetCoinOf (coin : string) : string :=
  if (Nat.eqb (String.length coin) 4 && String.prefix "T" coin) || String.eqb coin "RETH"
  then String.substring 1 (String.length coin - 1) coin
  else coin.

Definition coins : list string := ["BTC"; "LTC"; "ETH"; "TBTC"; "TLTC"; "TETH"; "RETH"].
Definition mainnetCoins : list string := ["BTC"; "LTC"; "ETH"].

End ratesStore.

(** ** What the properties are stated with *)

(** The requests served one after the other, each on a fresh response
    writer, by one process: serving stops when the process exits. (A panic
    that leaves a handler ends that request only; [net/http] recovers it.) *)
Fixpoint serveAll (h : Handler) (rs : list http.Request) (s : Sys)
  : list (Completion unit * http.ResponseWriter) :=
  match rs with
  | [] => []
  | r :: rest =>
      let out := serveRequest h r s in
      match fst out with
      | Exited _ => [(fst out, resp (snd out))]
      | _ => (fst out, resp (snd out)) :: serveAll h rest (sys (snd out))
      end
  end.

(** The value the response body has to be the serialization of, by the
    outcome of the business function: the value it returned, or
    [{"error": message}] for an error and for a panic. *)
Definition envelope (out : Completion (GoValue * option string)) : option GoValue :=
  match out with
  | Done (v, None) => Some v
  | Done (_, Some e) => Some (errorBody e)
  | Panicking text => Some (errorBody text)
  | Exited _ => None
  end.

(** A route registered through [getAPIRouter], on whatever subrouter. *)
Definition Dispatched (p : Platform) (connData : ConnectionData) (rt : Route) : Prop :=
  exists prefix path f, routeHandler rt = routeHandler (getAPIRouter p connData prefix path f).

(** The request was answered with 401 and handed to nothing. *)
Definition denied (out : Completion unit * World) : Prop :=
  fst out = Done tt
  /\ http.statusCode (resp (snd out)) = http.StatusUnauthorized
  /\ invoked (snd out) = [].

Definition corsHeader : string := "Access-Control-Allow-Origin".

Definition patternMatches (url pattern : string) : bool :=
  match regexp.Compile pattern with
  | Some re => regexp.MatchString re url
  | None => false
  end.

(** What the two loops of [postOpenHandler] accept, for a downloads
    directory [dir]: a literal URL, a URL one of the fixed patterns matches,
    or a URL that begins with the characters of [dir]. *)
Definition allowed (dir url : string) : bool :=
  existsb (String.eqb url) whitelistedURLs
  || existsb (patternMatches url) fixedPatterns
  || String.prefix dir url.

(** The spec's words: the URL lies inside the directory. *)
Definition insideDirectory (dir url : string) : bool :=
  String.eqb url dir || String.prefix (dir +:+ "/") url.

(** Each key of either map stands for exactly one constructed sub-handler,
    and no sub-handler exists for a key outside the maps. *)
Definition oneEach (reg : Registry) : Prop :=
  forall f k, constructions f k reg
              = match handlersMap f reg !! k with Some _ => 1%nat | None => 0%nat end.

Definition conversionResult (amount : string) : GoValue :=
  VMap [("success", SBool true); ("amount", SString amount)].

(** The first step of [saveAsPEM] that fails, with the message logged for
    it. *)
Definition persistFailure (os : OS) (name : string) : option string :=
  match MkdirAll os (filepath_Dir name) with
  | Some err => Some ("failed to create directory " +:+ filepath_Dir name +:+ ": " +:+ err)
  | None =>
      match Create os name with
      | Some err => Some ("failed to open " +:+ name +:+ " for writing: " +:+ err)
      | None =>
          match pemEncode os name with
          | Some err => Some ("failed to write PEM encoded file " +:+ name +:+ ": " +:+ err)
          | None =>
              match fileClose os name with
              | Some err => Some ("failed to close PEM file " +:+ name +:+ ": " +:+ err)
              | None => None
              end
          end
      end
  end.

(** ** Sample surroundings, for evaluating the gateway on concrete requests *)

Definition dquote : string := String (ascii_of_nat 34) EmptyString.

Definition quoted (s : string) : string := dquote +:+ s +:+ dquote.

Definition sampleScalar (x : Scalar) : string :=
  match x with
  | SBool true => "true"
  | SBool false => "false"
  | SString s => quoted s
  end.

Fixpoint sampleMembers {A} (enc : A -> string) (kvs : list (string * A)) : string :=
  match kvs with
  | [] => EmptyString
  | [(k, v)] => quoted k +:+ ":" +:+ enc v
  | (k, v) :: rest => quoted k +:+ ":" +:+ enc v +:+ "," +:+ sampleMembers enc rest
  end.

(** An encoder for values whose strings need no escaping and whose keys
    are listed in sorted order. *)
Definition sampleEncode : Encoder :=
  fun v =>
    match v with
    | VNil => inl ("null" +:+ newline)
    | VBool b => inl (sampleScalar (SBool b) +:+ newline)
    | VString s => inl (quoted s +:+ newline)
    | VMapStr kvs => inl ("{" +:+ sampleMembers quoted kvs +:+ "}" +:+ newline)
    | VMap kvs => inl ("{" +:+ sampleMembers sampleScalar kvs +:+ "}" +:+ newline)
    | VFunc name => inr ("json: unsupported type: " +:+ name)
    end.

Definition float64_ten : spec_float := S754_finite false 5 1.
Definition float64_four : spec_float := S754_finite false 1 2.

(** An upgrader that accepts a websocket handshake and answers anything
    else with 400. *)
Definition sampleUpgrade (r : http.Request) : UpgradeResult :=
  if String.eqb (http.Method r) "GET"
     && String.eqb (http.Get (http.Header r) "Connection") "Upgrade"
     && String.eqb (http.Get (http.Header r) "Upgrade") "websocket"
     && String.eqb (http.Get (http.Header r) "Sec-Websocket-Version") "13"
     && negb (String.eqb (http.Get (http.Header r) "Sec-Websocket-Key") EmptyString)
  then Upgraded
  else UpgradeFailed 400 "Bad Request" "websocket: the client is not using the websocket protocol".

Definition samplePlatform : Platform :=
  mkPlatform sampleEncode
             (fun body => inl body)
             (inl "/home/user/Downloads")
             (fun _ => None)
             (fun s => if String.eqb s "10" then inl float64_ten else inr "invalid syntax")
             sampleUpgrade.

Definition returning (v : GoValue) : BusinessFn := fun _ => ret (v, None).
Definition failing (err : string) : BusinessFn := fun _ => ret (VNil, Some err).
Definition panicking (text : string) : BusinessFn := fun _ => panic text.

Definition sampleBackend : Backend :=
  mkBackend (returning (VString "data:image/png;base64,"))
            (returning VNil) (returning VNil) (returning VNil)
            (returning (VBool false))
            (returning (VString "4.0.0"))
            (returning (VBool false))
            (returning VNil) (returning VNil)
            (returning (VString "initialized"))
            (failing "Test keystore not available")
            (returning (VBool true))
            (returning VNil) (returning VNil)
            (fun _ => returning VNil)
            (returning VNil) (returning VNil)
            (returning (VMapStr []))
            {[ "BTC" := {[ "USD" := float64_four ]} ]}.

Definition sampleRequest (method path : string) (header : gmap string string) : http.Request :=
  http.mkRequest method path header ∅ EmptyString.

Definition noSys : Sys := mkSys [] [].

Definition versionRequest : http.Request := sampleRequest "GET" "/api/version" ∅.

(** A websocket handshake for the push channel, without [Authorization]. *)
Definition eventsRequest : http.Request :=
  sampleRequest "GET" "/api/events"
                {[ "Connection" := "Upgrade";
                   "Upgrade" := "websocket";
                   "Sec-Websocket-Version" := "13";
                   "Sec-Websocket-Key" := "dGhlIHNhbXBsZSBub25jZQ==" ]}.

(** A device of a type other than the one the gateway constructs handlers
    for is plugged in, and removed again. *)
Definition afterForeignInit : Registry :=
  stepRegistry (DeviceInit (mkDevice "dev7" OtherDevice)) newRegistry.
Definition afterForeignUninit : Registry :=
  stepRegistry (DeviceUninit "dev7") afterForeignInit.

Definition productionData : ConnectionData := NewConnectionData 8082 "secret".

Definition sampleRouter (connData : ConnectionData) : list Route :=
  Router (NewHandlers samplePlatform sampleBackend connData).

Definition portOnlyDevData : ConnectionData := NewConnectionData (-1) "secret".

Definition portOnlyDevRun (r : http.Request) : Completion unit * World :=
  serveRequest (ServeHTTP (sampleRouter portOnlyDevData)) r noSys.

Definition openRequest (url : string) : http.Request :=
  http.mkRequest "POST" "/api/open" ∅ ∅ url.

(** A platform on which the downloads directory cannot be determined, and
    one on which the system opener fails. *)
Definition noDownloadsPlatform : Platform :=
  mkPlatform sampleEncode (fun body => inl body) (inr "user: Current not implemented")
             (fun _ => None) (fun _ => inr "invalid syntax") sampleUpgrade.

Definition noOpenerPlatform : Platform :=
  mkPlatform sampleEncode (fun body => inl body) (inl "/home/user/Downloads")
             (fun _ => Some "exec: xdg-open: executable file not found in $PATH")
             (fun _ => inr "invalid syntax") sampleUpgrade.

Definition sampleCalls : list RegistryCall :=
  [ AccountInit "btc-acct"; DeviceInit (mkDevice "dev1" BitBoxDevice);
    CallGetAccountHandlers "btc-acct"; AccountUninit "btc-acct";
    CallGetDeviceHandlers "dev1"; AccountInit "ltc-acct"; CallGetAccountHandlers "btc-acct" ].

Definition convertRequest (from to amount : string) : http.Request :=
  http.mkRequest "GET" "/api/coins/convertFromFiat" ∅
                 {[ "from" := from; "to" := to; "amount" := amount ]} EmptyString.

Definition sampleOS : OS :=
  mkOS (inl 8082)
       (fun bits => inl (mkPrivateKey bits 7))
       (mkTime 1700000000 250 (FixedZone 3600))
       None
       (fun _ => None) (fun _ => None) (fun _ => None) (fun _ => None)
       (fun _ => None) (fun _ => None).

Definition readOnlyOS : OS :=
  mkOS (inl 8082)
       (fun bits => inl (mkPrivateKey bits 7))
       (mkTime 1700000000 250 (FixedZone 3600))
       None
       (fun _ => Some "mkdir config: read-only file system")
       (fun _ => None) (fun _ => None) (fun _ => None)
       (fun _ => None) (fun _ => None).

Definition noRoutes : Z -> list Route := fun _ => [].

(** The prefixes the fixed patterns of [/api/open] stand for. *)
Definition explorerPrefixes : list string :=
  [ "https://blockstream.info/testnet/tx/";
    "https://blockstream.info/tx/";
    "http://explorer.litecointools.com/tx/";
    "https://insight.litecore.io/tx/";
    "https://etherscan.io/tx/";
    "https://rinkeby.etherscan.io/tx/";
    "https://ropsten.etherscan.io/tx/" ].

(** A request that is not a websocket handshake. *)
Definition plainEventsRequest : http.Request := sampleRequest "GET" "/api/events" ∅.


(** An operating system on which the port has been taken by the time the
    server listens. *)
Definition portTakenOS : OS :=
  mkOS (inl 8082)
       (fun bits => inl (mkPrivateKey bits 7))
       (mkTime 1700000000 250 (FixedZone 3600))
       None
       (fun _ => None) (fun _ => None) (fun _ => None) (fun _ => None)
       (fun _ => Some "listen tcp 127.0.0.1:8082: bind: address already in use")
       (fun _ => None).



(** What [strconv.FormatFloat(x, 'f', 2, 64)] prints for the product of
    [x] and a zero rate: the product of a number and zero is a zero with the
    sign of the number, and of an infinity or a NaN and zero it is a NaN. *)
Definition timesZeroText (x : spec_float) : string :=
  match x with
  | S754_zero false | S754_finite false _ _ => "0.00"
  | S754_zero true | S754_finite true _ _ => "-0.00"
  | S754_infinity _ | S754_nan => "NaN"
  end.

Definition float64_minus_ten : spec_float := S754_finite true 5 1.

Definition sampleXpub : api.ExtendedKey :=
  api.mkExtendedKey [4; 136; 178; 30] false "xpub661MyMwAqRbcF".

Definition sampleXprv : api.ExtendedKey :=
  api.mkExtendedKey [4; 136; 173; 228] true "xprv9s21ZrQH143K3".

Definition sampleQueries : api.Queries :=
  api.mkQueries
    false
    (fun code =>
       if String.eqb code "btc" then inl (api.BtcCoin "btc" (VString "synced", None))
       else if String.eqb code "eth" then inl (api.OtherCoin "eth" "*eth.Coin")
       else inr "unknown coin")
    (fun server => if String.eqb server "electrum.example:50002"
                   then inl "-----BEGIN CERTIFICATE-----"
                   else inr "dial tcp: no such host")
    (fun _ _ => Some "x509: certificate signed by unknown authority")
    (fun body =>
       if String.eqb body "add-xpub"
       then inl {[ "coinCode" := "btc"; "scriptType" := "p2wpkh";
                   "accountName" := "Savings"; "extendedPublicKey" := "xpub661MyMwAqRbcF" ]}
       else if String.eqb body "add-xprv"
       then inl {[ "coinCode" := "btc"; "scriptType" := "p2wpkh";
                   "accountName" := "Savings"; "extendedPublicKey" := "xprv9s21ZrQH143K3" ]}
       else if String.eqb body "pin"
       then inl {[ "pin" := "1234" ]}
       else inr "invalid character")
    (fun _ => inr "unexpected end of JSON input")
    (fun t => if String.eqb t "p2wpkh" then inl "p2wpkh" else inr "unknown script type")
    (fun text =>
       if String.eqb text "xpub661MyMwAqRbcF" then inl sampleXpub
       else if String.eqb text "xprv9s21ZrQH143K3" then inl sampleXprv
       else inr "the provided serialized extended key length is invalid")
    (fun _ _ => [4; 136; 178; 30])
    (fun key version => bool_decide (api.keyVersion key = version))
    (fun scriptType _ => "a1b2c3").

Definition testingQueries : api.Queries :=
  api.mkQueries true (api.Coin sampleQueries) (api.DownloadCert sampleQueries)
                (api.CheckElectrumServer sampleQueries) (api.decodeMap sampleQueries)
                (api.decodeServer sampleQueries) (api.DecodeScriptType sampleQueries)
                (api.NewKeyFromString sampleQueries)
                (api.XPubVersionForScriptType sampleQueries) (api.IsForNet sampleQueries)
                (api.configurationHash sampleQueries).

Definition bodyRequest (method path body : string) : http.Request :=
  http.mkRequest method path ∅ ∅ body.

(** Thousands grouping, read from the right: after every three
    characters an apostrophe, when more characters follow. [sep3] works on
    the characters in reverse order. *)
Fixpoint sep3 (l : list ascii) : list ascii :=
  match l with
  | a :: b :: c :: rest =>
      match rest with
      | [] => l
      | _ :: _ => a :: b :: c :: ratesStore.apostrophe :: sep3 rest
      end
  | _ => l
  end.

Definition groupThousands (u : list ascii) : list ascii := rev (sep3 (rev u)).

Definition withoutApostrophes (s : list ascii) : list ascii :=
  List.filter (fun c => negb (Ascii.eqb c ratesStore.apostrophe)) s.

(** A store with three fiat codes selected and the second one active. *)
Definition sampleFrontend : ratesStore.Frontend :=
  ratesStore.mkFrontend
    (ratesStore.mkSharedProps None (ratesStore.Str "EUR")
       [ratesStore.Str "USD"; ratesStore.Str "EUR"; ratesStore.Str "CHF"])
    [] [].

(** The route subtrees mounted for sub-handlers, in the order of mounting,
    each with the family it was mounted for. *)
Definition mounts (reg : Registry) : list (Family * string) :=
  map (fun h => (family h, mountedAt h)) (objects reg).

(** ** Properties *)

(** *** Connection data *)

Lemma devMode_NewConnectionData (p : Z) (t : string) :
  devMode (NewConnectionData p t) = true <-> t = EmptyString.
Proof.
  unfold NewConnectionData; simpl. destruct t as [|c t]; simpl.
  - split; reflexivity.
  - split; discriminate.
Qed.

Lemma isDev_NewConnectionData (p : Z) (t : string) :
  isDev (NewConnectionData p t) = true <-> p = -1 \/ t = EmptyString.
Proof.
  unfold isDev, NewConnectionData; simpl.
  rewrite orb_true_iff, Z.eqb_eq, String.eqb_eq. reflexivity.
Qed.

(** C2: on port -1 with a non-empty token the [devMode] field that
    [NewConnectionData] stores is [false], although the port is -1 (and
    [isDev] of the same data is [true]); the field follows the token alone. *)
Theorem NewConnectionData_devMode_ignores_port :
  devMode (NewConnectionData (-1) "secret") = false
  /\ isDev (NewConnectionData (-1) "secret") = true
  /\ forall p t, devMode (NewConnectionData p t) = true <-> t = EmptyString.
Proof.
  split; [reflexivity | split; [reflexivity | apply devMode_NewConnectionData]].
Qed.

(** *** Token gate *)

Lemma length_zero_eqb (a : string) :
  (Z.of_nat (String.length a) =? 0)%Z = String.eqb a EmptyString.
Proof. destruct a; reflexivity. Qed.

Lemma not_dev_token (port : Z) (token : string) :
  isDev (NewConnectionData port token) = false ->
  token <> EmptyString /\ devMode (NewConnectionData port token) = false.
Proof.
  intros H. assert (Hne : token <> EmptyString).
  { intros ->. unfold isDev in H; simpl in H. rewrite orb_true_r in H. discriminate. }
  split; [exact Hne |].
  destruct (devMode (NewConnectionData port token)) eqn:E; [| reflexivity].
  apply devMode_NewConnectionData in E. contradiction.
Qed.

(** What the gate does to a request, by its [Authorization] header, when
    the stored [devMode] flag is off. *)
Lemma isAPITokenValid_checked (r : http.Request) (apiData : ConnectionData) (w : World) :
  devMode apiData = false ->
  let authorization := http.Get (http.Header r) "Authorization" in
  let checking := mkSys (logs (sys w) ++ [mkLog LevelDebug "Checking API token"]) (events (sys w)) in
  isAPITokenValid r apiData w =
  if String.eqb authorization EmptyString then
    (Done false,
     mkWorld (http.Error ("missing token " +:+ http.Path r) http.StatusUnauthorized (resp w))
             (mkSys (logs checking ++
                     [mkLog LevelError "Missing token in API request. WARNING: this could be an attack on the API"])
                    (events (sys w)))
             (invoked w))
  else if String.eqb authorization ("Basic " +:+ token apiData) then
    (Done true, mkWorld (resp w) checking (invoked w))
  else
    (Done false,
     mkWorld (http.Error "incorrect token" http.StatusUnauthorized (resp w))
             (mkSys (logs checking ++
                     [mkLog LevelError "Incorrect token in API request. WARNING: this could be an attack on the API"])
                    (events (sys w)))
             (invoked w)).
Proof.
  intros Hdev authorization checking. unfold isAPITokenValid. rewrite Hdev.
  fold authorization. rewrite !length_zero_eqb.
  destruct (String.eqb authorization EmptyString) eqn:Hempty; [reflexivity |].
  destruct (String.eqb authorization ("Basic " +:+ token apiData)) eqn:Htok; reflexivity.
Qed.

Lemma isAPITokenValid_devMode (r : http.Request) (apiData : ConnectionData) (w : World) :
  devMode apiData = true -> isAPITokenValid r apiData w = (Done true, w).
Proof. intros H. unfold isAPITokenValid. rewrite H. reflexivity. Qed.

(** Unfolds the dispatcher down to the state it returns, and splits by the
    mode, by what the business function did and by what the encoder
    answers. *)
Ltac run_dispatcher :=
  unfold serveRequest, apiMiddleware, deferRecover, bind, onWriter, invoke, liftBiz,
    zoom, modify, writeJSON, srvLog, logAt, ret, panic.

Ltac by_outcome dev call enc :=
  destruct dev; simpl;
  destruct call as [[[? [?|]]|?|?] ?]; simpl in *;
  repeat match goal with
         | |- context [match enc ?x with _ => _ end] => destruct (enc x) eqn:?; simpl
         end.

(** The dispatcher hands every request to the business function, and to
    nothing else. *)
Lemma apiMiddleware_invoked (enc : Encoder) (dev : bool) (f : BusinessFn)
      (r : http.Request) (w : World) :
  invoked (snd (apiMiddleware enc dev f r w)) = (invoked w ++ [Business (http.Path r)])%list.
Proof.
  run_dispatcher; by_outcome dev (f r (sys w)) enc; reflexivity.
Qed.

Lemma static_routes_dispatched (p : Platform) (backend : Backend) (connData : ConnectionData) :
  Forall (fun rt => routePath rt <> "/api/events" -> Dispatched p connData rt)
         (Router (NewHandlers p backend connData)).
Proof.
  unfold NewHandlers, Router.
  repeat (apply Forall_cons; split;
          [ first [ intros _; exists EmptyString, EmptyString; eexists; reflexivity
                  | intros H; exfalso; apply H; reflexivity ] |]).
  apply Forall_nil. exact I.
Qed.

Section Gate.

Variables (p : Platform) (backend : Backend) (listenPort : Z) (secret : string).

Let connData := NewConnectionData listenPort secret.

Hypothesis production : isDev connData = false.

Lemma gated_run (f : BusinessFn) (prefix path : string) (r : http.Request) (s : Sys) :
  let authorization := http.Get (http.Header r) "Authorization" in
  let out := serveRequest (routeHandler (getAPIRouter p connData prefix path f)) r s in
  (authorization = "Basic " +:+ secret -> invoked (snd out) = [Business (http.Path r)])
  /\ (authorization = EmptyString ->
      denied out
      /\ http.wBody (resp (snd out)) = "missing token " +:+ http.Path r +:+ newline)
  /\ (authorization <> EmptyString -> authorization <> "Basic " +:+ secret ->
      denied out /\ http.wBody (resp (snd out)) = "incorrect token" +:+ newline).
Proof.
  destruct (not_dev_token _ _ production) as [Hne Hdev].
  intros authorization out. subst out.
  unfold serveRequest, getAPIRouter, routeHandler, ensureAPITokenValid, bind.
  rewrite (isAPITokenValid_checked _ _ _ Hdev). fold authorization.
  change (token (NewConnectionData listenPort secret)) with secret.
  destruct (String.eqb authorization EmptyString) eqn:Hempty.
  - apply String.eqb_eq in Hempty. repeat split; try reflexivity; try contradiction.
    intros Heq. rewrite Hempty in Heq. discriminate.
  - apply String.eqb_neq in Hempty.
    destruct (String.eqb authorization ("Basic " +:+ secret)) eqn:Htok.
    + apply String.eqb_eq in Htok. repeat split; try contradiction.
      intros _. rewrite apiMiddleware_invoked. reflexivity.
    + apply String.eqb_neq in Htok. repeat split; try reflexivity; try contradiction.
Qed.

(** C1 (amended): outside development mode, every route registered
    through [getAPIRouter] (all static routes of [NewHandlers] other than
    [/api/events], and all routes of the account and device subtrees)
    hands a request to its business function if and only if the
    [Authorization] header equals ["Basic " + token]; without the header the
    answer is 401 "missing token", with another header 401 "incorrect
    token", and the business function is not called. *)
Theorem gate_on_dispatched_routes :
  Forall (fun rt => routePath rt <> "/api/events" -> Dispatched p connData rt)
         (Router (NewHandlers p backend connData))
  /\ forall rt, Dispatched p connData rt ->
     forall (r : http.Request) (s : Sys),
       let authorization := http.Get (http.Header r) "Authorization" in
       let out := serveRequest (routeHandler rt) r s in
       (invoked (snd out) = [Business (http.Path r)] <-> authorization = "Basic " +:+ secret)
       /\ (authorization <> "Basic " +:+ secret -> denied out)
       /\ (authorization = EmptyString ->
           http.wBody (resp (snd out)) = "missing token " +:+ http.Path r +:+ newline)
       /\ (authorization <> EmptyString -> authorization <> "Basic " +:+ secret ->
           http.wBody (resp (snd out)) = "incorrect token" +:+ newline).
Proof.
  split; [apply static_routes_dispatched |].
  intros rt (prefix & path & f & Hrt) r s authorization out.
  subst out. rewrite Hrt.
  destruct (gated_run f prefix path r s) as (Hok & Hmissing & Hwrong).
  fold authorization in Hok, Hmissing, Hwrong.
  assert (Hdenied : authorization <> "Basic " +:+ secret ->
                    denied (serveRequest (routeHandler (getAPIRouter p connData prefix path f)) r s)).
  { intros Hneq. destruct (String.eqb authorization EmptyString) eqn:E.
    - apply String.eqb_eq in E. apply Hmissing, E.
    - apply String.eqb_neq in E. apply Hwrong; assumption. }
  split; [split | split; [| split]].
  - intros Hinv. destruct (String.eqb authorization ("Basic " +:+ secret)) eqn:E.
    + apply String.eqb_eq, E.
    + apply String.eqb_neq in E. destruct (Hdenied E) as (_ & _ & Hnone).
      rewrite Hnone in Hinv. discriminate.
  - exact Hok.
  - exact Hdenied.
  - intros E. apply Hmissing, E.
  - intros E1 E2. apply Hwrong; assumption.
Qed.

End Gate.

Lemma gate_on_dispatched_routes_witness :
  isDev productionData = false
  /\ invoked (snd (serveRequest (ServeHTTP (sampleRouter productionData))
                                (sampleRequest "GET" "/api/version"
                                               {[ "Authorization" := "Basic secret" ]})
                                noSys))
     = [Business "/api/version"].
Proof.
  split; [reflexivity |].
  pose proof (gate_on_dispatched_routes samplePlatform sampleBackend 8082 "secret" eq_refl)
    as [_ Hgate].
  apply (Hgate (getAPIRouter samplePlatform productionData "/api" "/version"
                             (getVersionHandler sampleBackend))).
  - exists "/api", "/version", (getVersionHandler sampleBackend). reflexivity.
  - reflexivity.
Defined.

(** C1 (as stated, refuted): [/api/events] is registered with
    [apiRouter.HandleFunc], not through [getAPIRouter]; outside development
    mode a request to it without any [Authorization] header is not answered
    with 401 but handed to the websocket upgrade. *)
Lemma events_route_not_gated :
  isDev productionData = false
  /\ http.Get (http.Header eventsRequest) "Authorization" = EmptyString
  /\ invoked (snd (serveRequest (ServeHTTP (sampleRouter productionData)) eventsRequest noSys))
     = [Upgrade "/api/events"; RunWebsocket]
  /\ http.statusCode
       (resp (snd (serveRequest (ServeHTTP (sampleRouter productionData)) eventsRequest noSys)))
     = http.StatusSwitchingProtocols
  /\ http.statusCode
       (resp (snd (serveRequest (ServeHTTP (sampleRouter productionData)) eventsRequest noSys)))
     <> http.StatusUnauthorized
  /\ ~ denied (serveRequest (ServeHTTP (sampleRouter productionData)) eventsRequest noSys).
Proof.
  vm_compute. repeat split; try discriminate.
  intros (_ & H & _). discriminate.
Qed.

(** *** Development mode *)

Lemma apiMiddleware_header (enc : Encoder) (dev : bool) (f : BusinessFn)
      (r : http.Request) (w : World) :
  http.wHeader (resp (snd (apiMiddleware enc dev f r w))) =
  if dev
  then <[corsHeader := "http://localhost:8080"]>
         (<["Content-Type" := "text/json"]> (http.wHeader (resp w)))
  else <["Content-Type" := "text/json"]> (http.wHeader (resp w)).
Proof.
  run_dispatcher; by_outcome dev (f r (sys w)) enc; reflexivity.
Qed.

(** With an empty token every request to a dispatched route, with or
    without an [Authorization] header, reaches the business function and the
    response carries the cross-origin header. *)
Lemma gate_open_without_token (p : Platform) (listenPort : Z) (prefix path : string)
      (f : BusinessFn) (r : http.Request) (s : Sys) :
  let connData := NewConnectionData listenPort EmptyString in
  let out := serveRequest (routeHandler (getAPIRouter p connData prefix path f)) r s in
  invoked (snd out) = [Business (http.Path r)]
  /\ http.wHeader (resp (snd out)) !! corsHeader = Some "http://localhost:8080".
Proof.
  intros connData out. subst out.
  unfold serveRequest, getAPIRouter, routeHandler, ensureAPITokenValid, bind.
  rewrite isAPITokenValid_devMode by reflexivity.
  rewrite apiMiddleware_invoked, apiMiddleware_header.
  assert (Hdev : isDev connData = true).
  { unfold connData, isDev; simpl. apply orb_true_r. }
  rewrite Hdev. split; [reflexivity | apply lookup_insert_eq].
Qed.

(** C4: with port -1 and a non-empty token development mode holds
    ([isDev] is [true]), yet a request to [/api/version] without an
    [Authorization] header is answered with 401 "missing token", is not
    handed to the business function and carries no cross-origin header: the
    gate reads the stored [devMode] field, which follows the token alone. *)
Theorem dev_port_request_rejected :
  isDev portOnlyDevData = true
  /\ devMode portOnlyDevData = false
  /\ http.Get (http.Header versionRequest) "Authorization" = EmptyString
  /\ fst (portOnlyDevRun versionRequest) = Done tt
  /\ http.statusCode (resp (snd (portOnlyDevRun versionRequest))) = http.StatusUnauthorized
  /\ http.wBody (resp (snd (portOnlyDevRun versionRequest)))
     = "missing token /api/version" +:+ newline
  /\ invoked (snd (portOnlyDevRun versionRequest)) = []
  /\ http.wHeader (resp (snd (portOnlyDevRun versionRequest))) !! corsHeader = None.
Proof. vm_compute. repeat split. Qed.

(** *** Request dispatcher *)

Section Dispatcher.

Variables (enc : Encoder) (dev : bool) (f : BusinessFn).

(** C3: whatever the business function does with the request (return a
    value, return an error, panic), the dispatcher returns normally, never
    calls [WriteHeader] (so the status is the default 200), and the body is
    the encoding of the value, of [{"error": message}], of
    [{"error": panic text}] respectively; the process goes on to serve the
    requests that follow. *)
Theorem dispatcher_envelope (r : http.Request) (s : Sys) (v : GoValue) (bytes : string) :
  envelope (fst (f r s)) = Some v ->
  enc v = inl bytes ->
  let out := serveRequest (apiMiddleware enc dev f) r s in
  fst out = Done tt
  /\ http.wBody (resp (snd out)) = bytes
  /\ http.wroteHeader (resp (snd out)) = None
  /\ http.statusCode (resp (snd out)) = http.StatusOK
  /\ forall rest,
       serveAll (apiMiddleware enc dev f) (r :: rest) s =
       (Done tt, resp (snd out)) :: serveAll (apiMiddleware enc dev f) rest (sys (snd out)).
Proof.
  intros Henv Henc out.
  assert (H : fst out = Done tt /\ http.wBody (resp (snd out)) = bytes
              /\ http.wroteHeader (resp (snd out)) = None).
  { subst out. run_dispatcher.
    destruct dev; simpl;
      destruct (f r s) as [[[v' [e|]]|text|code] s']; simpl in *;
      try discriminate; injection Henv as <-; rewrite Henc; simpl; auto. }
  destruct H as (Hdone & Hbody & Hstatus).
  repeat split; try assumption.
  - unfold http.statusCode. rewrite Hstatus. reflexivity.
  - intros rest. simpl. fold out. rewrite Hdone. reflexivity.
Qed.

(** A returned value the encoder refuses: [writeJSON] panics with the
    encoder's error, and the deferred function answers with it. *)
Lemma dispatcher_unencodable (r : http.Request) (s : Sys) (v : GoValue) (s' : Sys)
      (err bytes : string) :
  f r s = (Done (v, None), s') ->
  enc v = inr err ->
  enc (errorBody err) = inl bytes ->
  fst (serveRequest (apiMiddleware enc dev f) r s) = Done tt
  /\ http.wBody (resp (snd (serveRequest (apiMiddleware enc dev f) r s))) = bytes.
Proof.
  intros Hf Hv Herr. run_dispatcher.
  destruct dev; simpl; rewrite Hf; simpl; rewrite Hv; simpl; rewrite Herr; simpl; auto.
Qed.

End Dispatcher.

Lemma dispatcher_envelope_witness :
  http.wBody (resp (snd (serveRequest
    (apiMiddleware sampleEncode false (returning (VString "4.0.0"))) versionRequest noSys)))
  = quoted "4.0.0" +:+ newline
  /\ http.wBody (resp (snd (serveRequest
    (apiMiddleware sampleEncode false (failing "boom")) versionRequest noSys)))
  = "{" +:+ quoted "error" +:+ ":" +:+ quoted "boom" +:+ "}" +:+ newline
  /\ http.wBody (resp (snd (serveRequest
    (apiMiddleware sampleEncode false (panicking "index out of range")) versionRequest noSys)))
  = "{" +:+ quoted "error" +:+ ":" +:+ quoted "index out of range" +:+ "}" +:+ newline.
Proof.
  split; [| split].
  - apply (dispatcher_envelope sampleEncode false (returning (VString "4.0.0"))
                               versionRequest noSys (VString "4.0.0")); reflexivity.
  - apply (dispatcher_envelope sampleEncode false (failing "boom")
                               versionRequest noSys (errorBody "boom")); reflexivity.
  - apply (dispatcher_envelope sampleEncode false (panicking "index out of range")
                               versionRequest noSys (errorBody "index out of range")); reflexivity.
Defined.

(** *** The allow-list of [/api/open] *)

Lemma not_metachar (c : ascii) :
  regexp.metachar c = false -> Ascii.eqb c "\" = false /\ Ascii.eqb c "(" = false.
Proof.
  unfold regexp.metachar, regexp.metachars; simpl. intros H.
  repeat (apply orb_false_iff in H as [? H]). split; assumption.
Qed.

Lemma parseItems_QuoteMeta (d : string) :
  regexp.parseItems None (regexp.QuoteMeta d) = Some (map regexp.Chr (list_ascii_of_string d)).
Proof.
  induction d as [|c d IH]; [reflexivity |].
  cbn [regexp.QuoteMeta]. destruct (regexp.metachar c) eqn:E.
  - cbn [regexp.parseItems]. rewrite Ascii.eqb_refl, E, IH. reflexivity.
  - destruct (not_metachar c E) as [Hb Hp].
    cbn [regexp.parseItems]. rewrite Hb, Hp, E, IH. reflexivity.
Qed.

Lemma MatchString_literal (d url : string) :
  regexp.MatchString (map regexp.Chr (list_ascii_of_string d)) url = String.prefix d url.
Proof.
  revert url. induction d as [|c d IH]; intros url; [destruct url; reflexivity |].
  destruct url as [|c' url]; [reflexivity |].
  cbn [list_ascii_of_string map regexp.MatchString String.prefix].
  destruct (ascii_dec c c') as [->|Hne].
  - rewrite Ascii.eqb_refl. apply IH.
  - apply Ascii.eqb_neq in Hne. rewrite Hne. reflexivity.
Qed.

Lemma downloads_pattern (dir url : string) :
  regexp.Compile ("^" +:+ regexp.QuoteMeta dir)
  = Some (map regexp.Chr (list_ascii_of_string dir))
  /\ patternMatches url ("^" +:+ regexp.QuoteMeta dir) = String.prefix dir url.
Proof.
  assert (H : regexp.Compile ("^" +:+ regexp.QuoteMeta dir)
              = Some (map regexp.Chr (list_ascii_of_string dir))).
  { change (regexp.parseItems None (regexp.QuoteMeta dir) = Some (map regexp.Chr (list_ascii_of_string dir))).
    apply parseItems_QuoteMeta. }
  split; [exact H |]. unfold patternMatches. rewrite H. apply MatchString_literal.
Qed.

(** Every pattern of the handler compiles: [MustCompile] never panics. *)
Lemma whitelistedPatterns_compile (dir : string) :
  Forall (fun pattern => is_Some (regexp.Compile pattern)) (whitelistedPatterns dir).
Proof.
  unfold whitelistedPatterns, fixedPatterns. apply Forall_app. split.
  - repeat (apply Forall_cons; split; [vm_compute; eexists; reflexivity |]).
    apply Forall_nil. exact I.
  - apply Forall_cons. split; [| apply Forall_nil; exact I].
    rewrite (proj1 (downloads_pattern dir EmptyString)). eexists; reflexivity.
Qed.

Lemma matchesAnyPattern_compiled (patterns : list string) (url : string) (s : Sys) :
  Forall (fun pattern => is_Some (regexp.Compile pattern)) patterns ->
  matchesAnyPattern patterns url s = (Done (existsb (patternMatches url) patterns), s).
Proof.
  induction 1 as [|pattern rest [re Hre] _ IH]; [reflexivity |].
  cbn [matchesAnyPattern existsb]. unfold patternMatches at 1. rewrite Hre.
  destruct (regexp.MatchString re url); [reflexivity | exact IH].
Qed.

Lemma matchesAnyPattern_whitelisted (dir url : string) (s : Sys) :
  matchesAnyPattern (whitelistedPatterns dir) url s
  = (Done (existsb (patternMatches url) fixedPatterns || String.prefix dir url), s).
Proof.
  rewrite matchesAnyPattern_compiled by apply whitelistedPatterns_compile.
  unfold whitelistedPatterns. rewrite existsb_app. cbn [existsb].
  rewrite (proj2 (downloads_pattern dir url)), orb_false_r. reflexivity.
Qed.

(** C5 (amended): for a posted URL, when the downloads directory is known:
    if the URL is a literal of the allow-list, or a fixed pattern matches it,
    or it begins with the characters of the downloads directory, the
    handler calls the system opener once, on that URL, and returns the
    opener's result; for every other URL it returns the blocked-URL error
    and does not call the opener. When the downloads directory cannot be
    determined the handler returns that error and does not call the opener. *)
Theorem postOpen_allow_list (p : Platform) (r : http.Request) (s : Sys) (url : string) :
  jsonDecodeString p (http.Body r) = inl url ->
  postOpenHandler p r s =
  match DownloadsDir p with
  | inr err => (Done (VNil, Some err), s)
  | inl dir =>
      if allowed dir url
      then (Done (VNil, systemOpen p url), mkSys (logs s) (events s ++ [EvSystemOpen url]))
      else (Done (VNil, Some ("Blocked /open with url: " +:+ url)), s)
  end.
Proof.
  intros Hurl. unfold postOpenHandler. rewrite Hurl.
  destruct (DownloadsDir p) as [dir|err]; [| reflexivity].
  unfold bind at 1. rewrite matchesAnyPattern_whitelisted. unfold allowed.
  destruct (existsb (String.eqb url) whitelistedURLs);
    destruct (existsb (patternMatches url) fixedPatterns);
    destruct (String.prefix dir url); reflexivity.
Qed.

Lemma postOpen_allow_list_witness :
  postOpenHandler samplePlatform (openRequest "https://blockstream.info/testnet/tx/ab12") noSys
  = (Done (VNil, None), mkSys [] [EvSystemOpen "https://blockstream.info/testnet/tx/ab12"])
  /\ postOpenHandler samplePlatform (openRequest "https://evil.example/phish") noSys
     = (Done (VNil, Some "Blocked /open with url: https://evil.example/phish"), noSys).
Proof.
  split.
  - apply (postOpen_allow_list samplePlatform
             (openRequest "https://blockstream.info/testnet/tx/ab12") noSys
             "https://blockstream.info/testnet/tx/ab12" eq_refl).
  - apply (postOpen_allow_list samplePlatform
             (openRequest "https://evil.example/phish") noSys
             "https://evil.example/phish" eq_refl).
Defined.

(** C5 (as stated, refuted): an allow-listed literal URL is neither opened
    nor answered with success when the downloads directory cannot be
    determined; it is not answered with success when the opener fails; and a
    URL outside the downloads directory whose text begins with the
    directory's path is opened. *)
Lemma postOpen_claim_fails :
  (In "https://shiftcrypto.ch/shop" whitelistedURLs
   /\ postOpenHandler noDownloadsPlatform (openRequest "https://shiftcrypto.ch/shop") noSys
      = (Done (VNil, Some "user: Current not implemented"), noSys))
  /\ postOpenHandler noOpenerPlatform (openRequest "https://shiftcrypto.ch/shop") noSys
     = (Done (VNil, Some "exec: xdg-open: executable file not found in $PATH"),
        mkSys [] [EvSystemOpen "https://shiftcrypto.ch/shop"])
  /\ (insideDirectory "/home/user/Downloads" "/home/user/Downloads-other/run.sh" = false
      /\ existsb (String.eqb "/home/user/Downloads-other/run.sh") whitelistedURLs = false
      /\ existsb (patternMatches "/home/user/Downloads-other/run.sh") fixedPatterns = false
      /\ postOpenHandler samplePlatform (openRequest "/home/user/Downloads-other/run.sh") noSys
         = (Done (VNil, None), mkSys [] [EvSystemOpen "/home/user/Downloads-other/run.sh"])).
Proof.
  split; [split; [simpl; tauto | vm_compute; reflexivity] |].
  split; [vm_compute; reflexivity |].
  repeat split; vm_compute; reflexivity.
Qed.

(** *** Handler registry *)

Lemma append_inj_r (s a b : string) : s +:+ a = s +:+ b -> a = b.
Proof. induction s as [|c s IH]; simpl; [auto | intros H; injection H; auto]. Qed.

Lemma prefixOf_inj (f : Family) (a b : string) : prefixOf f a = prefixOf f b -> a = b.
Proof.
  destruct f; unfold prefixOf, accountPrefix, devicePrefix; intros H;
    do 2 apply append_inj_r in H; exact H.
Qed.

Lemma constructedFor_fresh (f g : Family) (k key : string) :
  constructedFor f k (mkSubHandler g (prefixOf g key) None) = true <-> g = f /\ key = k.
Proof.
  unfold constructedFor; simpl. rewrite andb_true_iff, String.eqb_eq. split.
  - intros [Hf Hp]. destruct g, f; try discriminate; split; try reflexivity;
      apply (prefixOf_inj _ _ _ Hp).
  - intros [-> ->]. split; [destruct f |]; reflexivity.
Qed.

Lemma constructions_app (f : Family) (k : string) (reg : Registry) (h : SubHandler) (m1 m2 : gmap string nat) (lc : list Lifecycle) :
  constructions f k (mkRegistry m1 m2 (objects reg ++ [h]) lc)
  = (constructions f k reg + (if constructedFor f k h then 1 else 0))%nat.
Proof.
  unfold constructions; simpl. rewrite filter_app, length_app. f_equal.
  rewrite filter_cons, filter_nil.
  destruct (decide (constructedFor f k h = true)) as [H|H];
    [rewrite H | apply not_true_is_false in H; rewrite H]; reflexivity.
Qed.

Lemma filter_alter_length {A} (P : A -> Prop) `{!forall x, Decision (P x)}
      (g : A -> A) (i : nat) (l : list A) :
  (forall x, P (g x) <-> P x) ->
  length (filter P (alter g i l)) = length (filter P l).
Proof.
  intros Hg. revert i. induction l as [|x l IH]; intros [|i]; try reflexivity.
  - change (alter g 0%nat (x :: l)) with (g x :: l). rewrite !filter_cons.
    destruct (decide (P (g x))) as [Hy|Hn], (decide (P x)) as [Hy'|Hn'];
      try reflexivity; exfalso; [apply Hn', Hg, Hy | apply Hn, Hg, Hy'].
  - change (alter g (S i) (x :: l)) with (x :: alter g i l). rewrite !filter_cons.
    destruct (decide (P x)); cbn [length]; rewrite IH; reflexivity.
Qed.

Lemma alter_fresh {A} (g : A -> A) (l : list A) (x : A) :
  alter g (length l) (l ++ [x])%list = (l ++ [g x])%list.
Proof. induction l as [|y l IH]; simpl; [reflexivity | f_equal; exact IH]. Qed.

Lemma getHandlers_stored (fk : Family * string) (reg : Registry) :
  handlersMap (fst fk) (snd (getHandlers fk reg)) !! snd fk = Some (fst (getHandlers fk reg)).
Proof.
  destruct fk as [[] k]; simpl; unfold getAccountHandlers, getDeviceHandlers;
    match goal with |- context [match ?m !! k with _ => _ end] => destruct (m !! k) eqn:E end;
    simpl; [exact E | apply lookup_insert_eq | exact E | apply lookup_insert_eq].
Qed.

Lemma getHandlers_keeps (fk : Family * string) (reg : Registry) (f : Family) (k : string) (i : nat) :
  handlersMap f reg !! k = Some i -> handlersMap f (snd (getHandlers fk reg)) !! k = Some i.
Proof.
  intros H. destruct fk as [[] k0]; simpl; unfold getAccountHandlers, getDeviceHandlers;
    match goal with |- context [match ?m !! k0 with _ => _ end] => destruct (m !! k0) eqn:E end;
    simpl; try exact H; destruct f; simpl in *; try exact H;
    (destruct (decide (k0 = k)) as [->|Hne];
     [congruence | rewrite lookup_insert_ne by exact Hne; exact H]).
Qed.

Lemma getHandlers_oneEach (fk : Family * string) (reg : Registry) :
  oneEach reg -> oneEach (snd (getHandlers fk reg)).
Proof.
  intros Hinv f k. specialize (Hinv f k).
  destruct fk as [[] k0]; simpl; unfold getAccountHandlers, getDeviceHandlers;
    match goal with |- context [match ?m !! k0 with _ => _ end] => destruct (m !! k0) eqn:E end;
    simpl; try exact Hinv.
  - rewrite constructions_app, Hinv.
    change (accountPrefix k0) with (prefixOf AccountFamily k0).
    destruct (constructedFor f k _) eqn:C.
    + apply constructedFor_fresh in C as [<- <-]. simpl.
      rewrite E, lookup_insert_eq. reflexivity.
    + destruct f; simpl; [| rewrite Nat.add_0_r; reflexivity].
      destruct (decide (k0 = k)) as [->|Hne].
      * exfalso. apply not_true_iff_false in C. apply C, constructedFor_fresh. auto.
      * rewrite lookup_insert_ne by exact Hne. rewrite Nat.add_0_r. reflexivity.
  - rewrite constructions_app, Hinv.
    change (devicePrefix k0) with (prefixOf DeviceFamily k0).
    destruct (constructedFor f k _) eqn:C.
    + apply constructedFor_fresh in C as [<- <-]. simpl.
      rewrite E, lookup_insert_eq. reflexivity.
    + destruct f; simpl; [rewrite Nat.add_0_r; reflexivity |].
      destruct (decide (k0 = k)) as [->|Hne].
      * exfalso. apply not_true_iff_false in C. apply C, constructedFor_fresh. auto.
      * rewrite lookup_insert_ne by exact Hne. rewrite Nat.add_0_r. reflexivity.
Qed.

Lemma Init_oneEach (ref : nat) (entity : string) (reg : Registry) :
  oneEach reg -> oneEach (Init ref entity reg).
Proof.
  intros Hinv f k. specialize (Hinv f k). unfold constructions in *.
  destruct f; simpl in *; rewrite filter_alter_length; try exact Hinv; intros []; reflexivity.
Qed.

Lemma Uninit_oneEach (ref : nat) (reg : Registry) :
  oneEach reg -> oneEach (Uninit ref reg).
Proof.
  intros Hinv f k. specialize (Hinv f k). unfold constructions in *.
  destruct f; simpl in *; rewrite filter_alter_length; try exact Hinv; intros []; reflexivity.
Qed.

(** A step is the lookup-or-create of the key it resolves, followed by at
    most an [Init] or [Uninit], which leave the maps alone. *)
Lemma stepRegistry_maps (c : RegistryCall) (reg : Registry) (f : Family) :
  handlersMap f (stepRegistry c reg)
  = match resolves c with
    | Some fk => handlersMap f (snd (getHandlers fk reg))
    | None => handlersMap f reg
    end.
Proof.
  destruct c as [k|k|k|k|[k []]|k]; simpl; try reflexivity;
    unfold onAccountInit, onAccountUninit, onDeviceInit, onDeviceUninit; simpl;
    try match goal with
        | |- context [getAccountHandlers ?k ?r] => destruct (getAccountHandlers k r)
        | |- context [getDeviceHandlers ?k ?r] => destruct (getDeviceHandlers k r)
        end; destruct f; reflexivity.
Qed.

Lemma stepRegistry_oneEach (c : RegistryCall) (reg : Registry) :
  oneEach reg -> oneEach (stepRegistry c reg).
Proof.
  intros Hinv.
  destruct c as [k|k|k|k|[k []]|k]; simpl;
    unfold onAccountInit, onAccountUninit, onDeviceInit, onDeviceUninit; simpl;
    try exact Hinv.
  - apply (getHandlers_oneEach (AccountFamily, k)), Hinv.
  - apply (getHandlers_oneEach (DeviceFamily, k)), Hinv.
  - pose proof (getHandlers_oneEach (AccountFamily, k) reg Hinv) as H. simpl in H.
    destruct (getAccountHandlers k reg). apply Init_oneEach, H.
  - pose proof (getHandlers_oneEach (AccountFamily, k) reg Hinv) as H. simpl in H.
    destruct (getAccountHandlers k reg). apply Uninit_oneEach, H.
  - pose proof (getHandlers_oneEach (DeviceFamily, k) reg Hinv) as H. simpl in H.
    destruct (getDeviceHandlers k reg). apply Init_oneEach, H.
  - pose proof (getHandlers_oneEach (DeviceFamily, k) reg Hinv) as H. simpl in H.
    destruct (getDeviceHandlers k reg). apply Uninit_oneEach, H.
Qed.

Lemma stepRegistry_keeps (c : RegistryCall) (reg : Registry) (f : Family) (k : string) (i : nat) :
  handlersMap f reg !! k = Some i -> handlersMap f (stepRegistry c reg) !! k = Some i.
Proof.
  intros H. rewrite stepRegistry_maps. destruct (resolves c); [| exact H].
  apply getHandlers_keeps, H.
Qed.

Lemma runRegistry_sound (cs : list RegistryCall) (reg : Registry) :
  oneEach reg ->
  oneEach (snd (runRegistry cs reg))
  /\ (forall f k i, handlersMap f reg !! k = Some i ->
                    handlersMap f (snd (runRegistry cs reg)) !! k = Some i)
  /\ Forall (fun x => handlersMap (fst (fst x)) (snd (runRegistry cs reg)) !! snd (fst x)
                      = Some (snd x))
            (fst (runRegistry cs reg)).
Proof.
  revert reg. induction cs as [|c cs IH]; intros reg Hinv; simpl.
  - split; [exact Hinv | split; [auto | apply Forall_nil; exact I]].
  - destruct (IH (stepRegistry c reg) (stepRegistry_oneEach c reg Hinv)) as (Hone & Hkeep & Hall).
    destruct (runRegistry cs (stepRegistry c reg)) as [more final]; simpl in *.
    split; [exact Hone |]. split.
    + intros f k i H. apply Hkeep, stepRegistry_keeps, H.
    + apply Forall_app. split; [| exact Hall].
      destruct (resolves c) as [fk|] eqn:R; [| apply Forall_nil; exact I].
      apply Forall_cons. split; [| apply Forall_nil; exact I]. simpl.
      apply Hkeep. rewrite stepRegistry_maps, R. apply getHandlers_stored.
Qed.

Lemma newRegistry_oneEach : oneEach newRegistry.
Proof. intros [] k; reflexivity. Qed.

Lemma getHandlers_again (fk : Family * string) (reg : Registry) :
  getHandlers fk (snd (getHandlers fk reg)) = getHandlers fk reg.
Proof.
  pose proof (getHandlers_stored fk reg) as H.
  destruct (getHandlers fk reg) as [ref reg1] eqn:E. simpl in *.
  destruct fk as [[] k]; simpl in *; unfold getAccountHandlers, getDeviceHandlers;
    rewrite H; reflexivity.
Qed.

(** C6: whatever calls reach the registry of [NewHandlers] and in whatever
    order the lock admits them, every call that resolves a key obtains the
    reference stored for that key in the end (so all calls for one key
    obtain the same object), exactly one sub-handler with its route subtree
    has been constructed for each key resolved and none for any other key,
    and resolving a key again returns the same reference and leaves the
    registry as it is. *)
Theorem registry_single_instance (cs : list RegistryCall) :
  let obtained := fst (runRegistry cs newRegistry) in
  let reg := snd (runRegistry cs newRegistry) in
  Forall (fun x => handlersMap (fst (fst x)) reg !! snd (fst x) = Some (snd x)
                   /\ constructions (fst (fst x)) (snd (fst x)) reg = 1%nat) obtained
  /\ (forall f k ref1 ref2, In (f, k, ref1) obtained -> In (f, k, ref2) obtained -> ref1 = ref2)
  /\ (forall f k, constructions f k reg
                  = match handlersMap f reg !! k with Some _ => 1%nat | None => 0%nat end)
  /\ (forall fk, getHandlers fk (snd (getHandlers fk reg)) = getHandlers fk reg)
  /\ (forall f k ref, handlersMap f reg !! k = Some ref -> getHandlers (f, k) reg = (ref, reg)).
Proof.
  intros obtained reg.
  destruct (runRegistry_sound cs newRegistry newRegistry_oneEach) as (Hone & _ & Hall).
  fold reg in Hone, Hall. fold obtained in Hall.
  assert (Hstored : forall f k ref, In (f, k, ref) obtained -> handlersMap f reg !! k = Some ref).
  { intros f k ref Hin. rewrite Forall_forall in Hall.
    apply (Hall (f, k, ref)), list_elem_of_In, Hin. }
  split; [| split; [| split; [| split]]].
  - rewrite Forall_forall in *. intros [[f k] ref] Hin. simpl.
    pose proof (Hall _ Hin) as H. simpl in H. split; [exact H |].
    rewrite Hone, H. reflexivity.
  - intros f k ref1 ref2 H1 H2. apply Hstored in H1, H2. congruence.
  - exact Hone.
  - intros fk. apply getHandlers_again.
  - intros [] k ref H; simpl in *; unfold getAccountHandlers, getDeviceHandlers;
      rewrite H; reflexivity.
Qed.

Lemma registry_single_instance_witness :
  In (AccountFamily, "btc-acct", 0%nat) (fst (runRegistry sampleCalls newRegistry))
  /\ handlersMap AccountFamily (snd (runRegistry sampleCalls newRegistry)) !! "btc-acct" = Some 0%nat
  /\ getHandlers (AccountFamily, "btc-acct") (snd (runRegistry sampleCalls newRegistry))
     = (0%nat, snd (runRegistry sampleCalls newRegistry)).
Proof.
  assert (Hin : In (AccountFamily, "btc-acct", 0%nat) (fst (runRegistry sampleCalls newRegistry))).
  { vm_compute. tauto. }
  assert (Hmap : handlersMap AccountFamily (snd (runRegistry sampleCalls newRegistry)) !! "btc-acct"
                 = Some 0%nat).
  { vm_compute. reflexivity. }
  split; [exact Hin | split; [exact Hmap |]].
  exact (proj2 (proj2 (proj2 (proj2 (registry_single_instance sampleCalls))))
               AccountFamily "btc-acct" 0%nat Hmap).
Defined.

Example sampleCalls_run :
  fst (runRegistry sampleCalls newRegistry)
  = [ (AccountFamily, "btc-acct", 0%nat); (DeviceFamily, "dev1", 1%nat);
      (AccountFamily, "btc-acct", 0%nat); (AccountFamily, "btc-acct", 0%nat);
      (DeviceFamily, "dev1", 1%nat); (AccountFamily, "ltc-acct", 2%nat);
      (AccountFamily, "btc-acct", 0%nat) ]
  /\ map mountedAt (objects (snd (runRegistry sampleCalls newRegistry)))
     = [ "/api/account/btc-acct"; "/api/devices/dev1"; "/api/account/ltc-acct" ].
Proof. split; vm_compute; reflexivity. Qed.

(** *** Uninit before init *)

(** C9 (amended): an "uninit" event for a key that no "init" event has
    entered into the registry does not fail, and it is not guarded: the
    lookup constructs a fresh sub-handler, mounts its route subtree, enters
    it into the map, and [Uninit] is called on it at once. This holds for
    devices and for accounts alike. *)
Theorem uninit_without_init (reg : Registry) (key : string) :
  (deviceHandlersMap reg !! key = None ->
   onDeviceUninit key reg
   = mkRegistry (accountHandlersMap reg)
                (<[key := length (objects reg)]> (deviceHandlersMap reg))
                (objects reg ++ [mkSubHandler DeviceFamily (devicePrefix key) None])
                (lifecycle reg ++ [UninitCall (length (objects reg))]))
  /\ (accountHandlersMap reg !! key = None ->
      onAccountUninit key reg
      = mkRegistry (<[key := length (objects reg)]> (accountHandlersMap reg))
                   (deviceHandlersMap reg)
                   (objects reg ++ [mkSubHandler AccountFamily (accountPrefix key) None])
                   (lifecycle reg ++ [UninitCall (length (objects reg))])).
Proof.
  split; intros H; unfold onDeviceUninit, onAccountUninit, getDeviceHandlers, getAccountHandlers;
    rewrite H; unfold Uninit; simpl; rewrite alter_fresh; reflexivity.
Qed.

Lemma uninit_without_init_witness :
  onDeviceUninit "dev1" newRegistry
  = mkRegistry ∅ (<["dev1" := 0%nat]> ∅) [mkSubHandler DeviceFamily "/api/devices/dev1" None]
               [UninitCall 0]
  /\ onAccountUninit "btc-acct" newRegistry
     = mkRegistry (<["btc-acct" := 0%nat]> ∅) ∅
                  [mkSubHandler AccountFamily "/api/account/btc-acct" None] [UninitCall 0].
Proof.
  split.
  - apply (proj1 (uninit_without_init newRegistry "dev1")). reflexivity.
  - apply (proj2 (uninit_without_init newRegistry "btc-acct")). reflexivity.
Defined.

(** C9 (as stated, refuted): a device of a type the gateway gives no
    handlers is plugged in and removed again. Its "init" event leaves the
    registry empty; its "uninit" event is not a no-op and is not guarded: it
    constructs a sub-handler for the device, mounts [/api/devices/dev7] and
    calls [Uninit] on the new object. *)
Lemma uninit_creates_entry :
  afterForeignInit = newRegistry
  /\ deviceHandlersMap afterForeignInit !! "dev7" = None
  /\ afterForeignUninit <> afterForeignInit
  /\ deviceHandlersMap afterForeignUninit !! "dev7" = Some 0%nat
  /\ objects afterForeignUninit = [mkSubHandler DeviceFamily "/api/devices/dev7" None]
  /\ lifecycle afterForeignUninit = [UninitCall 0].
Proof.
  vm_compute. repeat split. intros H. discriminate.
Qed.

(** *** Conversion from fiat *)

Lemma zero_is_not_neq (sign : bool) : f64_neq (S754_zero sign) f64_zero = false.
Proof. destruct sign; reflexivity. Qed.

(** C10: when the amount parses and the rate looked up for the pair is a
    zero (as it is for an unknown pair), the handler divides nothing and
    returns [{"success": true, "amount": "0.00000000"}] with no error; a
    division the handler performs has the looked-up rate as its divisor, and
    that rate is not a zero. *)
Theorem convertFromFiat_zero_rate (p : Platform) (backend : Backend)
        (r : http.Request) (s : Sys) (amountAsFloat : spec_float) :
  ParseFloat p (http.Get (http.Query r) "amount") = inl amountAsFloat ->
  let rate := rateAt (Rates backend) (http.Get (http.Query r) "to")
                     (http.Get (http.Query r) "from") in
  let out := getConvertFromFiatHandler p backend r s in
  (forall sign, rate = S754_zero sign ->
                out = (Done (conversionResult "0.00000000", None), s))
  /\ (Rates backend !! http.Get (http.Query r) "to" = None -> rate = S754_zero false)
  /\ (forall x y, In (EvFloatDiv x y) (events (snd out)) ->
                  ~ In (EvFloatDiv x y) (events s) ->
                  x = amountAsFloat /\ y = rate /\ forall sign, rate <> S754_zero sign).
Proof.
  intros Hparse rate out. subst out. unfold getConvertFromFiatHandler.
  rewrite Hparse. fold rate. split; [| split].
  - intros sign Hrate. rewrite Hrate, zero_is_not_neq. reflexivity.
  - intros Hnone. unfold rate, rateAt. rewrite Hnone. reflexivity.
  - intros x y Hin Hnew. destruct (f64_neq rate f64_zero) eqn:E.
    + simpl in Hin. apply in_app_or in Hin as [Hold | [Heq | []]]; [contradiction |].
      injection Heq as <- <-. split; [reflexivity | split; [reflexivity |]].
      intros sign Hrate. rewrite Hrate, zero_is_not_neq in E. discriminate.
    + simpl in Hin. contradiction.
Qed.

Lemma convertFromFiat_zero_rate_witness :
  getConvertFromFiatHandler samplePlatform sampleBackend (convertRequest "USD" "XYZ" "10") noSys
  = (Done (conversionResult "0.00000000", None), noSys).
Proof.
  apply (proj1 (convertFromFiat_zero_rate samplePlatform sampleBackend
                  (convertRequest "USD" "XYZ" "10") noSys float64_ten eq_refl) false).
  reflexivity.
Defined.

Example convertFromFiat_known_pair :
  getConvertFromFiatHandler samplePlatform sampleBackend (convertRequest "USD" "BTC" "10") noSys
  = (Done (conversionResult "2.50000000", None),
     mkSys [] [EvFloatDiv float64_ten float64_four]).
Proof. vm_compute. reflexivity. Qed.

(** *** Certificate *)





(** When signing succeeds the function returns a certificate, the same
    whatever the state of the process, and leaves that state alone. *)
Lemma createSelfSignedCertificate_returns (os : OS) (privateKey : PrivateKey) :
  signingError os = None ->
  exists cert, forall s, createSelfSignedCertificate os privateKey s = (Done cert, s).
Proof.
  intros Hsign. unfold createSelfSignedCertificate. rewrite Hsign.
  eexists. intros s. reflexivity.
Qed.




(** *** Persisting the certificate *)

Lemma saveAsPEM_outcome (os : OS) (name : string) (block : PemBlock) (s : Process) :
  match persistFailure os name with
  | Some msg =>
      fst (saveAsPEM os name block s) = Exited 1
      /\ last (plog (snd (saveAsPEM os name block s))) = Some (mkLog LevelFatal msg)
      /\ serving (snd (saveAsPEM os name block s)) = serving s
      /\ goroutines (snd (saveAsPEM os name block s)) = goroutines s
  | None =>
      saveAsPEM os name block s
      = (Done None,
         mkProcess (plog s) (directories s ++ [filepath_Dir name])
                   (<[name := Some block]> (<[name := None]> (files s))) (serving s)
                   (goroutines s))
  end.
Proof.
  unfold persistFailure, saveAsPEM.
  destruct (MkdirAll os (filepath_Dir name)); simpl;
    [split; [reflexivity | split; [apply last_snoc | split; reflexivity]] |].
  destruct (Create os name); simpl;
    [split; [reflexivity | split; [apply last_snoc | split; reflexivity]] |].
  destruct (pemEncode os name); simpl;
    [split; [reflexivity | split; [apply last_snoc | split; reflexivity]] |].
  destruct (fileClose os name); simpl;
    [split; [reflexivity | split; [apply last_snoc | split; reflexivity]] |].
  reflexivity.
Qed.

(** C8 (amended): once the port, the key and the certificate are there, a
    failure to persist the certificate (creating the directory, creating the
    file, encoding, closing) is logged with [log.Fatalf], which ends the
    process with status 1: [serve] does not return, the goroutine that
    would listen is not started and nothing is served. Only when every step
    succeeds does [serve] start that goroutine, with the in-memory
    certificate and key, and return the port; the goroutine then serves with
    them once [net.Listen] has succeeded. *)
Theorem persist_failure_is_fatal (os : OS) (newHandlers : Z -> list Route) (s : Process)
        (port : Z) (privateKey : PrivateKey) :
  FreePort os = inl port ->
  GenerateKey os rsaBits = inl privateKey ->
  signingError os = None ->
  let out := serve os newHandlers s in
  match persistFailure os tlsServerCertificate with
  | Some msg =>
      fst out = Exited 1
      /\ last (plog (snd out)) = Some (mkLog LevelFatal msg)
      /\ serving (snd out) = serving s
      /\ goroutines (snd out) = goroutines s
  | None =>
      exists cert,
        let sv := mkServing ("localhost:" +:+ itoa port) cert privateKey (newHandlers port) in
        createSelfSignedCertificate os privateKey s = (Done cert, s)
        /\ fst out = Done port
        /\ goroutines (snd out) = (goroutines s ++ [sv])%list
        /\ serving (snd out) = serving s
        /\ files (snd out) !! tlsServerCertificate = Some (Some (derToPem "CERTIFICATE" cert))
        /\ (Listen os ("localhost:" +:+ itoa port) = None ->
            serving (snd (listenAndServe os sv (snd out))) = Some sv)
  end.
Proof.
  intros Hport Hkey Hsign out. subst out.
  unfold serve, generateRSAPrivateKey. rewrite Hport, Hkey.
  destruct (createSelfSignedCertificate_returns os privateKey Hsign) as (cert & Hcert).
  pose proof (Hcert s) as Hcert'.
  unfold bind, logPrintln, goFunc, modify, ret. rewrite Hcert.
  pose proof (saveAsPEM_outcome os tlsServerCertificate (derToPem "CERTIFICATE" cert)
                (mkProcess (plog s ++ [mkLog LevelInfo ("Port: " +:+ itoa port)])
                           (directories s) (files s) (serving s) (goroutines s))) as Hsave.
  destruct (persistFailure os tlsServerCertificate) as [msg|].
  - destruct Hsave as (Hexit & Hlog & Hserving & Hgo).
    destruct (saveAsPEM os tlsServerCertificate _ _) as [c s']. simpl in *.
    rewrite Hexit. simpl. auto.
  - rewrite Hsave. simpl.
    exists cert. cbv zeta. split; [exact Hcert' |]. split; [reflexivity |].
    split; [reflexivity |]. split; [reflexivity |].
    split; [apply lookup_insert_eq |].
    intros Hlisten. unfold listenAndServe. cbn [servingAddr]. rewrite Hlisten.
    unfold bind, startServing, modify.
    destruct (Serve os ("localhost:" +:+ itoa port)); reflexivity.
Qed.

Lemma persist_failure_is_fatal_witness :
  fst (serve readOnlyOS noRoutes newProcess) = Exited 1
  /\ last (plog (snd (serve readOnlyOS noRoutes newProcess)))
     = Some (mkLog LevelFatal "failed to create directory config: mkdir config: read-only file system")
  /\ serving (snd (serve readOnlyOS noRoutes newProcess)) = serving newProcess
  /\ goroutines (snd (serve readOnlyOS noRoutes newProcess)) = goroutines newProcess.
Proof.
  exact (persist_failure_is_fatal readOnlyOS noRoutes newProcess 8082 (mkPrivateKey 2048 7)
                                  eq_refl eq_refl eq_refl).
Defined.

(** C8 (as stated, refuted): the configuration directory cannot be
    created. The failure is logged, and the process ends with status 1
    before the goroutine that would serve is started: nothing is served. *)
Lemma persist_failure_aborts :
  persistFailure readOnlyOS tlsServerCertificate
  = Some "failed to create directory config: mkdir config: read-only file system"
  /\ fst (serve readOnlyOS noRoutes newProcess) = Exited 1
  /\ fst (serve readOnlyOS noRoutes newProcess) <> Done 8082
  /\ serving (snd (serve readOnlyOS noRoutes newProcess)) = None
  /\ goroutines (snd (serve readOnlyOS noRoutes newProcess)) = []
  /\ map logLevel (plog (snd (serve readOnlyOS noRoutes newProcess))) = [LevelInfo; LevelFatal].
Proof.
  vm_compute. repeat split. intros H. discriminate.
Qed.

Example serve_sample :
  fst (serve sampleOS noRoutes newProcess) = Done 8082
  /\ map servingAddr (goroutines (snd (serve sampleOS noRoutes newProcess))) = ["localhost:8082"]
  /\ serving (snd (serve sampleOS noRoutes newProcess)) = None
  /\ directories (snd (serve sampleOS noRoutes newProcess)) = ["config"].
Proof. vm_compute. repeat split. Qed.

(** ** Further properties of handlers.go *)

(** *** Gate and dispatcher *)

(** X1: connection data made with an empty token, on whatever port, lets
    every request to a dispatched route through: whatever its
    [Authorization] header, the request is handed to the business function
    (and to nothing else), nothing is logged by the gate, and the response
    carries the cross-origin header for the development origin. *)
Theorem empty_token_opens_gate (p : Platform) (listenPort : Z) (prefix path : string)
        (f : BusinessFn) (r : http.Request) (s : Sys) :
  let connData := NewConnectionData listenPort EmptyString in
  let out := serveRequest (routeHandler (getAPIRouter p connData prefix path f)) r s in
  out = apiMiddleware (jsonEncode p) true f r (mkWorld http.newWriter s [])
  /\ invoked (snd out) = [Business (http.Path r)]
  /\ http.wHeader (resp (snd out)) !! corsHeader = Some "http://localhost:8080".
Proof.
  intros connData out. subst out.
  unfold serveRequest, getAPIRouter, routeHandler, ensureAPITokenValid, bind.
  rewrite isAPITokenValid_devMode by reflexivity.
  assert (Hdev : isDev connData = true).
  { unfold connData, isDev; simpl. apply orb_true_r. }
  rewrite Hdev. split; [reflexivity |].
  rewrite apiMiddleware_invoked, apiMiddleware_header.
  split; [reflexivity | apply lookup_insert_eq].
Qed.

(** X2: outside development mode a request whose [Authorization] header is
    not ["Basic " + token] has no effect behind the gate: the business
    function is not called and records no event, the gate adds exactly a
    debug entry and an error entry to the log, and the 401 answer is plain
    text without a cross-origin header. *)
Theorem denied_request_has_no_effect (p : Platform) (listenPort : Z) (secret : string)
        (prefix path : string) (f : BusinessFn) (r : http.Request) (s : Sys) :
  isDev (NewConnectionData listenPort secret) = false ->
  http.Get (http.Header r) "Authorization" <> "Basic " +:+ secret ->
  let out := serveRequest
               (routeHandler (getAPIRouter p (NewConnectionData listenPort secret) prefix path f))
               r s in
  fst out = Done tt
  /\ http.statusCode (resp (snd out)) = http.StatusUnauthorized
  /\ invoked (snd out) = []
  /\ events (sys (snd out)) = events s
  /\ map logLevel (logs (sys (snd out))) = (map logLevel (logs s) ++ [LevelDebug; LevelError])%list
  /\ http.wHeader (resp (snd out)) !! "Content-Type" = Some "text/plain; charset=utf-8"
  /\ http.wHeader (resp (snd out)) !! corsHeader = None.
Proof.
  intros Hprod Hneq out. subst out.
  destruct (not_dev_token _ _ Hprod) as [_ Hdev].
  unfold serveRequest, getAPIRouter, routeHandler, ensureAPITokenValid, bind.
  rewrite (isAPITokenValid_checked _ _ _ Hdev).
  change (token (NewConnectionData listenPort secret)) with secret.
  apply String.eqb_neq in Hneq. rewrite Hneq.
  destruct (String.eqb (http.Get (http.Header r) "Authorization") EmptyString);
    simpl; rewrite !map_app; simpl; rewrite <- !app_assoc; repeat split.
Qed.

Lemma denied_request_has_no_effect_witness :
  events (sys (snd (serveRequest
    (routeHandler (getAPIRouter samplePlatform productionData "/api" "/open"
                                (postOpenHandler samplePlatform)))
    (http.mkRequest "POST" "/api/open" {[ "Authorization" := "Basic guess" ]} ∅
                    "https://shiftcrypto.ch/shop")
    noSys))) = [].
Proof.
  apply (denied_request_has_no_effect samplePlatform 8082 "secret" "/api" "/open"
           (postOpenHandler samplePlatform)
           (http.mkRequest "POST" "/api/open" {[ "Authorization" := "Basic guess" ]} ∅
                           "https://shiftcrypto.ch/shop")
           noSys eq_refl).
  vm_compute. discriminate.
Defined.

(** X3: whatever the business function does (return, fail, panic, end the
    process) and whatever the encoder answers, the dispatcher has set the
    content type [text/json], has set the cross-origin header exactly when
    it was built for development mode, and has not called [WriteHeader]. *)
Theorem dispatcher_headers (enc : Encoder) (dev : bool) (f : BusinessFn)
        (r : http.Request) (s : Sys) :
  let out := serveRequest (apiMiddleware enc dev f) r s in
  http.wHeader (resp (snd out)) !! "Content-Type" = Some "text/json"
  /\ http.wHeader (resp (snd out)) !! corsHeader
     = (if dev then Some "http://localhost:8080" else None)
  /\ http.wroteHeader (resp (snd out)) = None.
Proof.
  intros out. subst out. run_dispatcher.
  by_outcome dev (f r s) enc; repeat split.
Qed.

(** X4: when the business function returns a value the encoder refuses,
    the panic of [writeJSON] is caught by the dispatcher's own deferred
    function: the handler returns normally and the body is the error
    envelope carrying the encoder's error, with the default status. *)
Theorem unencodable_value_is_enveloped (enc : Encoder) (dev : bool) (f : BusinessFn)
        (r : http.Request) (s s' : Sys) (v : GoValue) (err bytes : string) :
  f r s = (Done (v, None), s') ->
  enc v = inr err ->
  enc (errorBody err) = inl bytes ->
  let out := serveRequest (apiMiddleware enc dev f) r s in
  fst out = Done tt
  /\ http.wBody (resp (snd out)) = bytes
  /\ http.statusCode (resp (snd out)) = http.StatusOK
  /\ map logLevel (logs (sys (snd out))) = (map logLevel (logs s') ++ [LevelError])%list.
Proof.
  intros Hf Hv Herr out. subst out. run_dispatcher.
  destruct dev; simpl; rewrite Hf; simpl; rewrite Hv; simpl; rewrite Herr; simpl;
    rewrite map_app; repeat split.
Qed.

Lemma unencodable_value_is_enveloped_witness :
  http.wBody (resp (snd (serveRequest
    (apiMiddleware sampleEncode false (returning (VFunc "func()"))) versionRequest noSys)))
  = "{" +:+ quoted "error" +:+ ":" +:+ quoted "json: unsupported type: func()" +:+ "}" +:+ newline.
Proof.
  apply (unencodable_value_is_enveloped sampleEncode false (returning (VFunc "func()"))
           versionRequest noSys noSys (VFunc "func()") "json: unsupported type: func()");
    reflexivity.
Defined.

Lemma events_route_served (p : Platform) (backend : Backend) (connData : ConnectionData)
      (r : http.Request) :
  http.Path r = "/api/events" ->
  ServeHTTP (Router (NewHandlers p backend connData)) r = eventsHandler p r.
Proof.
  intros Hpath. unfold ServeHTTP, NewHandlers, Router, routeMatches.
  rewrite Hpath. reflexivity.
Qed.

(** X5: a request to [/api/events] that the upgrader refuses leaves the
    handler panicking: the route is not wrapped by the dispatcher, so the
    panic with the upgrader's error is neither recovered nor logged, and the
    websocket is not run. *)
Theorem failed_upgrade_panics (p : Platform) (backend : Backend) (connData : ConnectionData)
        (r : http.Request) (s : Sys) (status : Z) (statusText err : string) :
  http.Path r = "/api/events" ->
  websocketUpgrade p r = UpgradeFailed status statusText err ->
  let out := serveRequest (ServeHTTP (Router (NewHandlers p backend connData))) r s in
  fst out = Panicking err
  /\ invoked (snd out) = [Upgrade "/api/events"]
  /\ sys (snd out) = s.
Proof.
  intros Hpath Hup out. subst out. unfold serveRequest.
  rewrite (events_route_served p backend connData r Hpath).
  unfold eventsHandler, bind, invoke, modify, onWriter, panic. simpl.
  rewrite Hup, Hpath. simpl. repeat split.
Qed.

Lemma failed_upgrade_panics_witness :
  fst (serveRequest (ServeHTTP (sampleRouter productionData)) plainEventsRequest noSys)
  = Panicking "websocket: the client is not using the websocket protocol".
Proof.
  apply (failed_upgrade_panics samplePlatform sampleBackend productionData plainEventsRequest
           noSys 400 "Bad Request" "websocket: the client is not using the websocket protocol");
    reflexivity.
Defined.

(** *** [/api/open] *)

(** X6: whatever is posted and on whatever platform, [postOpenHandler]
    returns (it neither panics nor ends the process), logs nothing, and
    calls the system opener at most once; when it does, the URL opened is
    the decoded body, the downloads directory was determined, and the URL
    is accepted by the allow-list. *)
Theorem postOpen_opens_only_allowed (p : Platform) (r : http.Request) (s : Sys) :
  let out := postOpenHandler p r s in
  (exists res, fst out = Done res)
  /\ logs (snd out) = logs s
  /\ (events (snd out) = events s
      \/ exists url dir,
           jsonDecodeString p (http.Body r) = inl url
           /\ DownloadsDir p = inl dir
           /\ allowed dir url = true
           /\ events (snd out) = (events s ++ [EvSystemOpen url])%list).
Proof.
  intros out.
  assert (Hrun : out = match jsonDecodeString p (http.Body r), DownloadsDir p with
                       | inr err, _ => (Done (VNil, Some err), s)
                       | inl _, inr err => (Done (VNil, Some err), s)
                       | inl url, inl dir =>
                           if allowed dir url
                           then (Done (VNil, systemOpen p url),
                                 mkSys (logs s) (events s ++ [EvSystemOpen url]))
                           else (Done (VNil, Some ("Blocked /open with url: " +:+ url)), s)
                       end).
  { subst out. unfold postOpenHandler.
    destruct (jsonDecodeString p (http.Body r)) as [url|err]; [| reflexivity].
    destruct (DownloadsDir p) as [dir|err]; [| reflexivity].
    unfold bind at 1. rewrite matchesAnyPattern_whitelisted. unfold allowed.
    destruct (existsb (String.eqb url) whitelistedURLs);
      destruct (existsb (patternMatches url) fixedPatterns);
      destruct (String.prefix dir url); reflexivity. }
  rewrite Hrun. clear Hrun out.
  destruct (jsonDecodeString p (http.Body r)) as [url|err];
    [| split; [eexists; reflexivity | split; [reflexivity | left; reflexivity]]].
  destruct (DownloadsDir p) as [dir|err];
    [| split; [eexists; reflexivity | split; [reflexivity | left; reflexivity]]].
  destruct (allowed dir url) eqn:Hallowed;
    (split; [eexists; reflexivity | split; [reflexivity |]]);
    [right; exists url, dir; repeat split; assumption | left; reflexivity].
Qed.

Lemma append_cons (c : ascii) (s t : string) : String c s +:+ t = String c (s +:+ t).
Proof. reflexivity. Qed.

Lemma string_of_list_ascii_app (g b : list ascii) :
  string_of_list_ascii (g ++ b)%list = string_of_list_ascii g +:+ string_of_list_ascii b.
Proof.
  induction g as [|c g IH]; [reflexivity |].
  cbn [app string_of_list_ascii]. rewrite append_cons, IH. reflexivity.
Qed.

Lemma dropPrefix_prefix (g : list ascii) (rest url : string) :
  String.prefix (string_of_list_ascii g +:+ rest) url
  = match regexp.dropPrefix g url with
    | Some url' => String.prefix rest url'
    | None => false
    end.
Proof.
  revert url. induction g as [|c g IH]; intros url; [reflexivity |].
  destruct url as [|c' url]; [reflexivity |].
  cbn [string_of_list_ascii]. rewrite append_cons.
  cbn [String.prefix regexp.dropPrefix].
  destruct (ascii_dec c c') as [->|Hne].
  - rewrite Ascii.eqb_refl. apply IH.
  - apply Ascii.eqb_neq in Hne. rewrite Hne. reflexivity.
Qed.

Lemma MatchString_chars (b : list ascii) (url : string) :
  regexp.MatchString (map regexp.Chr b) url = String.prefix (string_of_list_ascii b) url.
Proof.
  rewrite <- (list_ascii_of_string_of_list_ascii b) at 1. apply MatchString_literal.
Qed.

(** An anchored pattern made of a literal, an optional literal group and a
    literal matches the texts that begin with the three in a row or with
    the two literals in a row. *)
Lemma MatchString_optional (a g b : list ascii) (url : string) :
  regexp.MatchString (map regexp.Chr a ++ regexp.OptGroup g :: map regexp.Chr b)%list url
  = String.prefix (string_of_list_ascii (a ++ g ++ b)%list) url
    || String.prefix (string_of_list_ascii (a ++ b)%list) url.
Proof.
  revert url. induction a as [|c a IH]; intros url.
  - cbn [map app regexp.MatchString].
    rewrite string_of_list_ascii_app, dropPrefix_prefix, MatchString_chars.
    destruct (regexp.dropPrefix g url); [rewrite MatchString_chars |]; reflexivity.
  - destruct url as [|c' url]; [reflexivity |].
    cbn [map app regexp.MatchString string_of_list_ascii String.prefix].
    destruct (ascii_dec c c') as [->|Hne].
    + rewrite Ascii.eqb_refl. apply IH.
    + apply Ascii.eqb_neq in Hne. rewrite Hne. reflexivity.
Qed.

Lemma patternMatches_literal (url lit pattern : string) :
  regexp.Compile pattern = Some (map regexp.Chr (list_ascii_of_string lit)) ->
  patternMatches url pattern = String.prefix lit url.
Proof. intros H. unfold patternMatches. rewrite H. apply MatchString_literal. Qed.

Lemma patternMatches_optional (url a g b pattern : string) :
  regexp.Compile pattern
  = Some (map regexp.Chr (list_ascii_of_string a)
          ++ regexp.OptGroup (list_ascii_of_string g)
             :: map regexp.Chr (list_ascii_of_string b))%list ->
  patternMatches url pattern
  = String.prefix (a +:+ g +:+ b) url || String.prefix (a +:+ b) url.
Proof.
  intros H. unfold patternMatches. rewrite H, MatchString_optional.
  rewrite !string_of_list_ascii_app, !string_of_list_ascii_of_string. reflexivity.
Qed.

(** X7: the six fixed patterns of the allow-list accept exactly the URLs
    that begin with one of seven block-explorer prefixes; in particular the
    dots of the host names are literal dots. *)
Theorem fixed_patterns_are_prefixes (url : string) :
  existsb (patternMatches url) fixedPatterns
  = existsb (fun prefix => String.prefix prefix url) explorerPrefixes.
Proof.
  unfold fixedPatterns, explorerPrefixes. cbn [existsb].
  rewrite (patternMatches_literal url "http://explorer.litecointools.com/tx/"
             "^http://explorer\.litecointools\.com/tx/") by reflexivity.
  rewrite (patternMatches_literal url "https://insight.litecore.io/tx/"
             "^https://insight\.litecore\.io/tx/") by reflexivity.
  rewrite (patternMatches_literal url "https://etherscan.io/tx/"
             "^https://etherscan\.io/tx/") by reflexivity.
  rewrite (patternMatches_literal url "https://rinkeby.etherscan.io/tx/"
             "^https://rinkeby\.etherscan\.io/tx/") by reflexivity.
  rewrite (patternMatches_literal url "https://ropsten.etherscan.io/tx/"
             "^https://ropsten\.etherscan\.io/tx/") by reflexivity.
  rewrite (patternMatches_optional url "https://blockstream.info/" "testnet/" "tx/"
             "^https://blockstream\.info/(testnet/)?tx/") by reflexivity.
  change ("https://blockstream.info/" +:+ "testnet/" +:+ "tx/")
    with "https://blockstream.info/testnet/tx/".
  change ("https://blockstream.info/" +:+ "tx/") with "https://blockstream.info/tx/".
  rewrite <- orb_assoc. reflexivity.
Qed.

(** X8: the pattern built for the downloads directory,
    ["^" + QuoteMeta(downloadDir)], always compiles and accepts exactly the
    URLs that begin with the characters of the directory, also when the
    directory's path contains characters that are special in patterns. *)
Theorem downloads_pattern_is_prefix (dir url : string) :
  is_Some (regexp.Compile ("^" +:+ regexp.QuoteMeta dir))
  /\ patternMatches url ("^" +:+ regexp.QuoteMeta dir) = String.prefix dir url.
Proof.
  destruct (downloads_pattern dir url) as [Hc Hm].
  split; [rewrite Hc; eexists; reflexivity | exact Hm].
Qed.

Example downloads_pattern_windows :
  regexp.QuoteMeta "C:\Users\a.b (x86)\Downloads" = "C:\\Users\\a\.b \(x86\)\\Downloads"
  /\ patternMatches "C:\Users\a.b (x86)\Downloads\export.csv"
                    ("^" +:+ regexp.QuoteMeta "C:\Users\a.b (x86)\Downloads") = true
  /\ patternMatches "C:\Users\aXb (x86)\Downloads\export.csv"
                    ("^" +:+ regexp.QuoteMeta "C:\Users\a.b (x86)\Downloads") = false.
Proof. repeat split. Qed.

(** ** Further properties of server.go *)

(** X9: [serve] returns only after every step of its own has succeeded:
    when it returns a port, that is the port [freeport.FreePort] gave, the
    key was generated with 2048 bits asked for, the certificate was created
    and persisted without failure, and the one goroutine [serve] has started
    is to listen on [localhost:<port>] and to serve the very certificate
    whose PEM block is in [config/server.pem], with the generated key.
    [serve] itself has brought up no server: listening is left to the
    goroutine. *)
Theorem serve_returns_after_every_step (os : OS) (newHandlers : Z -> list Route)
        (s s' : Process) (port : Z) :
  serve os newHandlers s = (Done port, s') ->
  FreePort os = inl port
  /\ exists privateKey cert,
       GenerateKey os 2048 = inl privateKey
       /\ signingError os = None
       /\ (forall s0, createSelfSignedCertificate os privateKey s0 = (Done cert, s0))
       /\ persistFailure os tlsServerCertificate = None
       /\ goroutines s'
          = (goroutines s
             ++ [mkServing ("localhost:" +:+ itoa port) cert privateKey (newHandlers port)])%list
       /\ serving s' = serving s
       /\ files s' !! tlsServerCertificate = Some (Some (mkPemBlock "CERTIFICATE" cert))
       /\ directories s' = (directories s ++ ["config"])%list
       /\ plog s' = (plog s ++ [mkLog LevelInfo ("Port: " +:+ itoa port)])%list.
Proof.
  unfold serve, generateRSAPrivateKey. intros Hrun.
  destruct (FreePort os) as [port'|err] eqn:Hport; [| discriminate].
  change rsaBits with 2048 in Hrun.
  destruct (GenerateKey os 2048) as [privateKey|err] eqn:Hkey; [| discriminate].
  destruct (signingError os) as [err|] eqn:Hsign.
  { unfold bind, logPrintln, modify, ret, createSelfSignedCertificate in Hrun.
    rewrite Hsign in Hrun. discriminate. }
  destruct (createSelfSignedCertificate_returns os privateKey Hsign) as (cert & Hcert).
  unfold bind, logPrintln, goFunc, modify, ret in Hrun. rewrite Hcert in Hrun.
  pose proof (saveAsPEM_outcome os tlsServerCertificate (derToPem "CERTIFICATE" cert)
                (mkProcess (plog s ++ [mkLog LevelInfo ("Port: " +:+ itoa port')])
                           (directories s) (files s) (serving s) (goroutines s))) as Hsave.
  destruct (persistFailure os tlsServerCertificate) as [msg|].
  { destruct Hsave as (Hexit & _).
    destruct (saveAsPEM os tlsServerCertificate _ _) as [c s0]. simpl in Hexit.
    rewrite Hexit in Hrun. discriminate. }
  rewrite Hsave in Hrun.
  simpl in Hrun. injection Hrun as <- <-.
  split; [reflexivity |]. exists privateKey, cert.
  repeat match goal with |- _ /\ _ => split end;
    try reflexivity; try assumption.
  simpl. apply lookup_insert_eq.
Qed.

Lemma serve_returns_after_every_step_witness :
  FreePort sampleOS = inl 8082
  /\ exists privateKey cert,
       GenerateKey sampleOS 2048 = inl privateKey
       /\ signingError sampleOS = None
       /\ (forall s0, createSelfSignedCertificate sampleOS privateKey s0 = (Done cert, s0))
       /\ persistFailure sampleOS tlsServerCertificate = None
       /\ goroutines (snd (serve sampleOS noRoutes newProcess))
          = (goroutines newProcess
             ++ [mkServing ("localhost:" +:+ itoa 8082) cert privateKey (noRoutes 8082)])%list
       /\ serving (snd (serve sampleOS noRoutes newProcess)) = serving newProcess
       /\ files (snd (serve sampleOS noRoutes newProcess)) !! tlsServerCertificate
          = Some (Some (mkPemBlock "CERTIFICATE" cert))
       /\ directories (snd (serve sampleOS noRoutes newProcess))
          = (directories newProcess ++ ["config"])%list
       /\ plog (snd (serve sampleOS noRoutes newProcess))
          = (plog newProcess ++ [mkLog LevelInfo ("Port: " +:+ itoa 8082)])%list.
Proof.
  apply (serve_returns_after_every_step sampleOS noRoutes newProcess
           (snd (serve sampleOS noRoutes newProcess)) 8082).
  vm_compute. reflexivity.
Defined.

(** [serve] returns the port whether or not the goroutine it has started
    will be able to listen. *)
Example serve_returns_before_listening :
  fst (serve portTakenOS noRoutes newProcess) = Done 8082
  /\ serving (snd (serve portTakenOS noRoutes newProcess)) = None
  /\ (forall sv, goroutines (snd (serve portTakenOS noRoutes newProcess)) = [sv] ->
      fst (listenAndServe portTakenOS sv (snd (serve portTakenOS noRoutes newProcess)))
      = Exited 1
      /\ serving (snd (listenAndServe portTakenOS sv (snd (serve portTakenOS noRoutes newProcess))))
         = None
      /\ last (plog (snd (listenAndServe portTakenOS sv
                           (snd (serve portTakenOS noRoutes newProcess)))))
         = Some (mkLog LevelFatal "listen tcp 127.0.0.1:8082: bind: address already in use")).
Proof.
  split; [reflexivity |]. split; [reflexivity |].
  intros sv Hsv. vm_compute in Hsv. injection Hsv as <-. repeat split.
Qed.

(** X10: [serve] never panics. Either it returns a port, or the process
    has ended with status 1; in that case the last log entry is the fatal
    message, the process serves nothing it did not serve before and no
    goroutine has been started. The goroutine [serve] starts does not panic
    either: it ends the process with status 1 after a fatal message, without
    a server when it could not listen, or it stays in [server.Serve] with
    the server up. *)
Theorem serve_returns_or_exits (os : OS) (newHandlers : Z -> list Route) (s : Process) :
  let out := serve os newHandlers s in
  ((exists port, fst out = Done port)
   \/ (fst out = Exited 1
       /\ serving (snd out) = serving s
       /\ goroutines (snd out) = goroutines s
       /\ exists msg, last (plog (snd out)) = Some (mkLog LevelFatal msg)))
  /\ forall sv s0,
       let run := listenAndServe os sv s0 in
       (fst run = Done tt /\ serving (snd run) = Some sv /\ plog (snd run) = plog s0
        /\ Listen os (servingAddr sv) = None)
       \/ (fst run = Exited 1
           /\ (exists msg, last (plog (snd run)) = Some (mkLog LevelFatal msg))
           /\ (serving (snd run) = serving s0
               \/ Listen os (servingAddr sv) = None /\ serving (snd run) = Some sv)).
Proof.
  intros out. subst out. split.
  - unfold serve, generateRSAPrivateKey.
    destruct (FreePort os) as [port|err];
      [| right; simpl; split; [reflexivity | split; [reflexivity | split;
           [reflexivity | eexists; apply last_snoc]]]].
    destruct (GenerateKey os rsaBits) as [privateKey|err];
      [| right; simpl; split; [reflexivity | split; [reflexivity | split;
           [reflexivity | eexists; apply last_snoc]]]].
    destruct (signingError os) as [err|] eqn:Hsign.
    { right. unfold bind, logPrintln, modify, ret, createSelfSignedCertificate.
      rewrite Hsign. simpl.
      split; [reflexivity | split; [reflexivity | split;
        [reflexivity | eexists; apply last_snoc]]]. }
    destruct (createSelfSignedCertificate_returns os privateKey Hsign) as (cert & Hcert).
    unfold bind, logPrintln, goFunc, modify, ret. rewrite Hcert.
    pose proof (saveAsPEM_outcome os tlsServerCertificate (derToPem "CERTIFICATE" cert)
                  (mkProcess (plog s ++ [mkLog LevelInfo ("Port: " +:+ itoa port)])
                             (directories s) (files s) (serving s) (goroutines s))) as Hsave.
    destruct (persistFailure os tlsServerCertificate) as [msg|].
    + destruct Hsave as (Hexit & Hlog & Hserving & Hgo).
      destruct (saveAsPEM os tlsServerCertificate _ _) as [c s0]. simpl in *.
      rewrite Hexit. right. simpl.
      split; [reflexivity | split; [exact Hserving | split; [exact Hgo | eauto]]].
    + rewrite Hsave. left. eexists. reflexivity.
  - intros sv s0. cbv zeta. unfold listenAndServe.
    destruct (Listen os (servingAddr sv)) as [err|].
    + right. simpl. split; [reflexivity |].
      split; [eexists; apply last_snoc | left; reflexivity].
    + unfold bind, startServing, modify.
      destruct (Serve os (servingAddr sv)) as [err|].
      * right. simpl. split; [reflexivity |].
        split; [eexists; apply last_snoc | right; split; reflexivity].
      * left. simpl. repeat split.
Qed.



(** ** Further properties of the business functions *)

(** X12: when the amount parses and the rate of the pair is the zero the
    rate table gives for an unknown pair, [getConvertToFiatHandler] still
    answers with success: the fiat amount is ["0.00"] for a non-negative
    number, ["-0.00"] for a negative number and ["NaN"] for an infinity or a
    NaN, and nothing is recorded or logged. *)
Theorem convertToFiat_zero_rate (p : Platform) (rates : gmap string (gmap string spec_float))
        (r : http.Request) (s : Sys) (amountAsFloat : spec_float) :
  ParseFloat p (http.Get (http.Query r) "amount") = inl amountAsFloat ->
  rateAt rates (http.Get (http.Query r) "from") (http.Get (http.Query r) "to") = f64_zero ->
  api.getConvertToFiatHandler p rates r s
  = (Done (VMap [("success", SBool true);
                 ("fiatAmount", SString (timesZeroText amountAsFloat))], None), s).
Proof.
  intros Hparse Hrate. unfold api.getConvertToFiatHandler. rewrite Hparse, Hrate.
  destruct amountAsFloat as [[]|[]| |[] m e]; reflexivity.
Qed.

Lemma convertToFiat_zero_rate_witness :
  api.getConvertToFiatHandler samplePlatform ∅
    (http.mkRequest "GET" "/api/coins/convertToFiat" ∅
                    {[ "from" := "BTC"; "to" := "USD"; "amount" := "10" ]} EmptyString)
    noSys
  = (Done (VMap [("success", SBool true); ("fiatAmount", SString "0.00")], None), noSys).
Proof.
  apply (convertToFiat_zero_rate samplePlatform ∅
           (http.mkRequest "GET" "/api/coins/convertToFiat" ∅
                           {[ "from" := "BTC"; "to" := "USD"; "amount" := "10" ]} EmptyString)
           noSys float64_ten); reflexivity.
Defined.

(** X13: [postRegisterTestKeystoreHandler] never panics, and it registers a
    test keystore only when the backend is in testing mode and the body
    decodes; the pin is then the body's ["pin"] (empty when absent) and the
    answer is [true]. Outside testing mode the answer is the error "Test
    keystore not available", whatever the body, and the backend is not
    called. *)
Theorem test_keystore_only_when_testing (q : api.Queries) (r : http.Request)
        (calls : list api.BackendCall) :
  let out := api.postRegisterTestKeystoreHandler q r calls in
  (exists res, fst out = Done res)
  /\ (api.Testing q = false ->
      out = (Done (VNil, Some "Test keystore not available"), calls))
  /\ (snd out = calls
      \/ exists jsonBody,
           api.Testing q = true
           /\ api.decodeMap q (http.Body r) = inl jsonBody
           /\ out = (Done (VBool true, None),
                     (calls ++ [api.RegisterTestKeystore (api.field jsonBody "pin")])%list)).
Proof.
  intros out. subst out. unfold api.postRegisterTestKeystoreHandler.
  destruct (api.Testing q); simpl.
  - destruct (api.decodeMap q (http.Body r)) as [jsonBody|err] eqn:Hd.
    + split; [eexists; reflexivity |]. split; [discriminate |].
      right. exists jsonBody. repeat split.
    + split; [eexists; reflexivity |]. split; [discriminate | left; reflexivity].
  - split; [eexists; reflexivity |]. split; [reflexivity | left; reflexivity].
Qed.

Lemma test_keystore_only_when_testing_witness :
  api.postRegisterTestKeystoreHandler sampleQueries (bodyRequest "POST" "/api/test/register" "pin") []
  = (Done (VNil, Some "Test keystore not available"), []).
Proof.
  apply (proj1 (proj2 (test_keystore_only_when_testing sampleQueries
                         (bodyRequest "POST" "/api/test/register" "pin") []))).
  reflexivity.
Defined.

Example test_keystore_registered :
  api.postRegisterTestKeystoreHandler testingQueries (bodyRequest "POST" "/api/test/register" "pin") []
  = (Done (VBool true, None), [api.RegisterTestKeystore "1234"]).
Proof. vm_compute. reflexivity. Qed.

(** X14: [postAddAccountHandler] never panics and calls on the backend at
    most once. It creates an account only when the body decodes, the coin
    and the script type are known, the extended key parses, is not a private
    key and, for a coin of the BTC family, is for the coin's net; the account
    is then created under the code [<configuration hash>-<coin code>] with
    the name from the body, and that code is the one the answer reports. *)
Theorem account_created_only_for_valid_xpub (q : api.Queries) (r : http.Request)
        (calls : list api.BackendCall) :
  let out := api.postAddAccountHandler q r calls in
  (exists res, fst out = Done res)
  /\ (snd out = calls
      \/ exists jsonBody coin scriptType xpub,
           api.decodeMap q (http.Body r) = inl jsonBody
           /\ api.Coin q (api.field jsonBody "coinCode") = inl coin
           /\ api.DecodeScriptType q (api.field jsonBody "scriptType") = inl scriptType
           /\ api.NewKeyFromString q (api.field jsonBody "extendedPublicKey") = inl xpub
           /\ api.keyIsPrivate xpub = false
           /\ (forall code status,
                 coin = api.BtcCoin code status ->
                 api.IsForNet q xpub (api.XPubVersionForScriptType q code scriptType) = true)
           /\ out = (Done (VMap [("success", SBool true);
                                 ("accountCode",
                                  SString (api.configurationHash q scriptType xpub
                                           +:+ "-" +:+ api.coinCode coin))], None),
                     (calls ++ [api.CreateAndAddAccount
                                  coin
                                  (api.configurationHash q scriptType xpub
                                   +:+ "-" +:+ api.coinCode coin)
                                  (api.field jsonBody "accountName") scriptType xpub])%list)).
Proof.
  intros out. subst out. unfold api.postAddAccountHandler.
  destruct (api.decodeMap q (http.Body r)) as [jsonBody|err] eqn:Hbody;
    [| split; [eexists; reflexivity | left; reflexivity]].
  destruct (api.Coin q (api.field jsonBody "coinCode")) as [coin|err] eqn:Hcoin;
    [| split; [eexists; reflexivity | left; reflexivity]].
  destruct (api.DecodeScriptType q (api.field jsonBody "scriptType")) as [scriptType|err] eqn:Hst;
    [| split; [eexists; reflexivity | left; reflexivity]].
  destruct (api.NewKeyFromString q (api.field jsonBody "extendedPublicKey")) as [xpub|err] eqn:Hkey;
    [| split; [eexists; reflexivity | left; reflexivity]].
  destruct (api.keyIsPrivate xpub) eqn:Hpriv;
    [split; [eexists; reflexivity | left; reflexivity] |].
  destruct coin as [code status|code goType].
  - destruct (api.IsForNet q xpub (api.XPubVersionForScriptType q code scriptType)) eqn:Hnet;
      simpl; [| split; [eexists; reflexivity | left; reflexivity]].
    split; [eexists; reflexivity |]. right.
    exists jsonBody, (api.BtcCoin code status), scriptType, xpub.
    repeat match goal with |- _ /\ _ => split end; try assumption; try reflexivity.
    intros code' status' Heq. injection Heq as <- <-. exact Hnet.
  - simpl. split; [eexists; reflexivity |]. right.
    exists jsonBody, (api.OtherCoin code goType), scriptType, xpub.
    repeat match goal with |- _ /\ _ => split end; try assumption; try reflexivity.
    intros code' status' Heq. discriminate.
Qed.

Example account_added :
  api.postAddAccountHandler sampleQueries (bodyRequest "POST" "/api/account-add" "add-xpub") []
  = (Done (VMap [("success", SBool true); ("accountCode", SString "a1b2c3-btc")], None),
     [api.CreateAndAddAccount (api.BtcCoin "btc" (VString "synced", None)) "a1b2c3-btc"
                              "Savings" "p2wpkh" sampleXpub])
  /\ api.postAddAccountHandler sampleQueries (bodyRequest "POST" "/api/account-add" "add-xprv") []
     = (Done (api.failure "xprivEntered", None), []).
Proof. split; vm_compute; reflexivity. Qed.

(** X15: the two certificate handlers use the error result for an
    undecodable body only. A failure of the backend to download or to check
    a certificate is answered as a value, ["success": false] with the
    backend's message, so the dispatcher does not put it into the error
    envelope; neither handler panics or records anything. *)
Theorem certs_failure_is_a_value (p : Platform) (q : api.Queries) (r : http.Request) (s : Sys) :
  (exists v,
     api.postCertsDownloadHandler p q r s
     = (Done (v, match jsonDecodeString p (http.Body r) with
                 | inr err => Some err
                 | inl _ => None
                 end), s)
     /\ forall server err,
          jsonDecodeString p (http.Body r) = inl server ->
          api.DownloadCert q server = inr err ->
          v = VMap [("success", SBool false); ("errorMessage", SString err)])
  /\ (exists v,
        api.postCertsCheckHandler q r s
        = (Done (v, match api.decodeServer q (http.Body r) with
                    | inr err => Some err
                    | inl _ => None
                    end), s)
        /\ forall server pemCert err,
             api.decodeServer q (http.Body r) = inl (server, pemCert) ->
             api.CheckElectrumServer q server pemCert = Some err ->
             v = VMap [("success", SBool false); ("errorMessage", SString err)]).
Proof.
  split.
  - unfold api.postCertsDownloadHandler.
    destruct (jsonDecodeString p (http.Body r)) as [server|err].
    + destruct (api.DownloadCert q server) as [pem|err] eqn:Hd;
        eexists; (split; [reflexivity |]); intros server' err' Heq Hd';
        injection Heq as <-; rewrite Hd in Hd'; [discriminate | injection Hd' as <-; reflexivity].
    + eexists. split; [reflexivity |]. intros server err' Heq. discriminate.
  - unfold api.postCertsCheckHandler.
    destruct (api.decodeServer q (http.Body r)) as [[server pemCert]|err].
    + destruct (api.CheckElectrumServer q server pemCert) as [err|] eqn:Hc;
        eexists; (split; [reflexivity |]); intros server' pem' err' Heq Hc';
        injection Heq as <- <-; rewrite Hc in Hc'; [injection Hc' as <-; reflexivity | discriminate].
    + eexists. split; [reflexivity |]. intros server pem err' Heq. discriminate.
Qed.

Lemma certs_failure_is_a_value_witness :
  api.postCertsDownloadHandler samplePlatform sampleQueries
    (bodyRequest "POST" "/api/certs/download" "nowhere.example:50002") noSys
  = (Done (VMap [("success", SBool false); ("errorMessage", SString "dial tcp: no such host")],
           None), noSys).
Proof.
  destruct (proj1 (certs_failure_is_a_value samplePlatform sampleQueries
                     (bodyRequest "POST" "/api/certs/download" "nowhere.example:50002") noSys))
    as (v & Hrun & Hv).
  rewrite Hrun. rewrite (Hv "nowhere.example:50002" "dial tcp: no such host" eq_refl eq_refl).
  reflexivity.
Defined.

(** X16: when the backend's coin for the code is not of the BTC family,
    [getHeadersStatus] panics on the type assertion; wrapped by the
    dispatcher the request is still answered normally, with the default
    status and the runtime's message in the error envelope. *)
Theorem headers_status_of_other_coin (enc : Encoder) (dev : bool) (q : api.Queries)
        (coinCode code goType : string) (r : http.Request) (s : Sys) (bytes : string) :
  api.Coin q coinCode = inl (api.OtherCoin code goType) ->
  enc (errorBody ("interface conversion: coin.Coin is " +:+ goType +:+ ", not *btc.Coin"))
  = inl bytes ->
  let out := serveRequest (apiMiddleware enc dev (api.getHeadersStatus q coinCode)) r s in
  fst (api.getHeadersStatus q coinCode r s)
  = Panicking ("interface conversion: coin.Coin is " +:+ goType +:+ ", not *btc.Coin")
  /\ fst out = Done tt
  /\ http.wBody (resp (snd out)) = bytes
  /\ http.statusCode (resp (snd out)) = http.StatusOK.
Proof.
  intros Hcoin Henc out. subst out. run_dispatcher.
  unfold api.getHeadersStatus, panic. rewrite Hcoin.
  destruct dev; simpl; rewrite Henc; simpl; repeat split.
Qed.

Lemma headers_status_of_other_coin_witness :
  http.wBody (resp (snd (serveRequest
    (apiMiddleware sampleEncode false (api.getHeadersStatus sampleQueries "eth"))
    versionRequest noSys)))
  = "{" +:+ quoted "error" +:+ ":"
    +:+ quoted "interface conversion: coin.Coin is *eth.Coin, not *btc.Coin" +:+ "}" +:+ newline.
Proof.
  apply (headers_status_of_other_coin sampleEncode false sampleQueries "eth" "eth" "*eth.Coin"
           versionRequest noSys); reflexivity.
Defined.

(** ** Properties of the fiat store and of number formatting *)

Section RatesStore.

Import ratesStore.

Lemma insertSeparators_step (formatted : list ascii) (position : Z) :
  0 < position ->
  insertSeparators formatted position
  = insertSeparators (take (Z.to_nat position) formatted
                      ++ apostrophe :: drop (Z.to_nat position) formatted)%list
                     (position - 3).
Proof.
  intros H. rewrite insertSeparators_equation_1.
  destruct (Z_lt_dec 0 position); [reflexivity | contradiction].
Qed.

Lemma insertSeparators_stop (formatted : list ascii) (position : Z) :
  position <= 0 -> insertSeparators formatted position = formatted.
Proof.
  intros H. rewrite insertSeparators_equation_1.
  destruct (Z_lt_dec 0 position); [lia | reflexivity].
Qed.

(** Insertions at or before a position do not reach what lies behind it. *)
Lemma insertSeparators_app (n : nat) :
  forall (q : Z) (u v : list ascii),
    (Z.to_nat q <= n)%nat -> q <= Z.of_nat (length u) ->
    insertSeparators (u ++ v)%list q = (insertSeparators u q ++ v)%list.
Proof.
  induction n as [|n IH]; intros q u v Hn Hq.
  - rewrite !insertSeparators_stop by lia. reflexivity.
  - destruct (Z_lt_dec 0 q) as [Hpos|Hneg].
    + rewrite (insertSeparators_step (u ++ v)%list), (insertSeparators_step u) by exact Hpos.
      rewrite take_app_le, drop_app_le by lia.
      change (take (Z.to_nat q) u ++ apostrophe :: drop (Z.to_nat q) u ++ v)%list
        with (take (Z.to_nat q) u ++ (apostrophe :: drop (Z.to_nat q) u) ++ v)%list.
      rewrite app_assoc. apply IH; [lia |].
      rewrite length_app, length_take. simpl. rewrite length_drop. lia.
    + rewrite !insertSeparators_stop by lia. reflexivity.
Qed.

Lemma sep3_short (l : list ascii) : (length l <= 3)%nat -> sep3 l = l.
Proof. destruct l as [|a [|b [|c [|d l]]]]; simpl; intros H; try reflexivity; lia. Qed.

Lemma last_three (u : list ascii) :
  (3 < length u)%nat ->
  exists w a b c, u = (w ++ [a; b; c])%list /\ w <> [].
Proof.
  intros H. rewrite <- (rev_involutive u) in *. rewrite length_rev in H.
  destruct (rev u) as [|c [|b [|a [|d l]]]]; simpl in H; try lia.
  exists (rev (d :: l)), a, b, c. split.
  - simpl. rewrite <- !app_assoc. reflexivity.
  - simpl. intros E. apply app_eq_nil in E as [_ E]. discriminate.
Qed.

Lemma groupThousands_snoc3 (w : list ascii) (a b c : ascii) :
  w <> [] ->
  groupThousands (w ++ [a; b; c]) = (groupThousands w ++ apostrophe :: [a; b; c])%list.
Proof.
  intros Hw. unfold groupThousands. rewrite rev_app_distr. simpl rev at 2.
  destruct (rev w) as [|d l] eqn:E.
  - exfalso. apply Hw. rewrite <- (rev_involutive w), E. reflexivity.
  - cbn [app sep3]. cbn [rev]. rewrite <- !app_assoc. reflexivity.
Qed.

(** Started three characters before the end, the loop groups the whole. *)
Lemma insertSeparators_groups (n : nat) :
  forall u : list ascii,
    (length u <= n)%nat ->
    insertSeparators u (Z.of_nat (length u) - 3) = groupThousands u.
Proof.
  induction n as [|n IH]; intros u Hn.
  - rewrite insertSeparators_stop by lia. unfold groupThousands.
    rewrite sep3_short by (rewrite length_rev; lia). symmetry. apply rev_involutive.
  - destruct (le_lt_dec (length u) 3) as [Hshort|Hlong].
    + rewrite insertSeparators_stop by lia. unfold groupThousands.
      rewrite sep3_short by (rewrite length_rev; lia). symmetry. apply rev_involutive.
    + destruct (last_three u Hlong) as (w & a & b & c & -> & Hw).
      rewrite length_app in *. simpl length in *.
      rewrite insertSeparators_step by lia.
      replace (Z.to_nat (Z.of_nat (length w + 3) - 3)) with (length w) by lia.
      rewrite take_app_length, drop_app_length.
      replace (Z.of_nat (length w + 3) - 3 - 3) with (Z.of_nat (length w) - 3) by lia.
      rewrite (insertSeparators_app (length w)) by lia.
      rewrite IH by lia. symmetry. apply groupThousands_snoc3, Hw.
Qed.

Lemma indexOfChar_bound (c : ascii) (s : list ascii) :
  -1 <= indexOfChar c s < Z.of_nat (length s) \/ (s = [] /\ indexOfChar c s = -1).
Proof.
  induction s as [|x s IH]; [right; split; reflexivity |].
  left. simpl indexOfChar. destruct (Ascii.eqb x c); [simpl length; lia |].
  destruct (indexOfChar c s <? 0)%Z eqn:E; simpl length; [lia |].
  apply Z.ltb_ge in E. destruct IH as [IH|[-> IH]]; [lia | simpl in E; lia].
Qed.

(** X17: [formatNumber] leaves a text without a point as it is; otherwise
    it groups the characters before the first point in threes, counted from
    the point leftwards, with an apostrophe between the groups, and leaves
    the point and what follows as they are. Every character before the
    point counts, also a minus sign. *)
Theorem formatNumber_groups_thousands {A} (toFixed2 : A -> list ascii) (amount : A) :
  let formatted := toFixed2 amount in
  let point := indexOfChar "." formatted in
  formatNumber toFixed2 amount
  = if (point <? 0)%Z then formatted
    else (groupThousands (take (Z.to_nat point) formatted)
          ++ drop (Z.to_nat point) formatted)%list.
Proof.
  intros formatted point. unfold formatNumber. fold formatted. fold point.
  destruct (point <? 0)%Z eqn:E.
  - apply Z.ltb_lt in E. apply insertSeparators_stop. lia.
  - apply Z.ltb_ge in E.
    assert (Hlen : point < Z.of_nat (length formatted)).
    { destruct (indexOfChar_bound "." formatted) as [H|[_ H]]; fold point in H; lia. }
    rewrite <- (take_drop (Z.to_nat point) formatted) at 1.
    rewrite (insertSeparators_app (Z.to_nat point))
      by (rewrite ?length_take; lia).
    f_equal.
    rewrite <- (insertSeparators_groups (length (take (Z.to_nat point) formatted))) by lia.
    f_equal. rewrite length_take. lia.
Qed.

Example formatNumber_samples :
  formatNumber (fun _ : unit => list_ascii_of_string "1234567.00") tt
  = list_ascii_of_string "1'234'567.00"
  /\ formatNumber (fun _ : unit => list_ascii_of_string "999.50") tt
     = list_ascii_of_string "999.50"
  /\ formatNumber (fun _ : unit => list_ascii_of_string "-123.45") tt
     = list_ascii_of_string "-'123.45"
  /\ formatNumber (fun _ : unit => list_ascii_of_string "NaN") tt
     = list_ascii_of_string "NaN".
Proof. repeat split. Qed.

Lemma withoutApostrophes_insert (n : nat) (s : list ascii) :
  withoutApostrophes (take n s ++ apostrophe :: drop n s) = withoutApostrophes s.
Proof.
  unfold withoutApostrophes. rewrite List.filter_app. simpl.
  rewrite <- List.filter_app, take_drop. reflexivity.
Qed.

Lemma insertSeparators_facts (n : nat) :
  forall (q : Z) (s : list ascii),
    (Z.to_nat q <= n)%nat ->
    withoutApostrophes (insertSeparators s q) = withoutApostrophes s
    /\ length (insertSeparators s q) = (length s + Z.to_nat ((q + 2) / 3))%nat.
Proof.
  induction n as [|n IH]; intros q s Hn.
  - rewrite insertSeparators_stop by lia. split; [reflexivity |].
    assert ((q + 2) / 3 < 1) by (apply Z.div_lt_upper_bound; lia). lia.
  - destruct (Z_lt_dec 0 q) as [Hpos|Hneg].
    + rewrite insertSeparators_step by exact Hpos.
      destruct (IH (q - 3) (take (Z.to_nat q) s ++ apostrophe :: drop (Z.to_nat q) s)%list)
        as [Hw Hl]; [lia |].
      rewrite Hw, Hl, withoutApostrophes_insert. split; [reflexivity |].
      rewrite length_app, length_take. simpl length. rewrite length_drop.
      replace (q + 2) with ((q - 3 + 2) + 1 * 3) by lia.
      rewrite Z.div_add by lia.
      assert (0 <= (q - 3 + 2) / 3) by (apply Z.div_le_lower_bound; lia). lia.
    + rewrite insertSeparators_stop by lia. split; [reflexivity |].
      assert ((q + 2) / 3 < 1) by (apply Z.div_lt_upper_bound; lia). lia.
Qed.

(** X18: [formatNumber] only inserts apostrophes: with the apostrophes
    taken out again its result is [amount.toFixed(2)], character by
    character, and with the first point at index [d] (-1: none) it inserts
    [(d - 1) / 3] of them, none when that is negative. *)
Theorem formatNumber_only_inserts {A} (toFixed2 : A -> list ascii) (amount : A) :
  withoutApostrophes (formatNumber toFixed2 amount) = withoutApostrophes (toFixed2 amount)
  /\ length (formatNumber toFixed2 amount)
     = (length (toFixed2 amount)
        + Z.to_nat ((indexOfChar "." (toFixed2 amount) - 1) / 3))%nat.
Proof.
  unfold formatNumber.
  destruct (insertSeparators_facts (Z.to_nat (indexOfChar "." (toFixed2 amount) - 3))
              (indexOfChar "." (toFixed2 amount) - 3) (toFixed2 amount)) as [Hw Hl]; [lia |].
  split; [exact Hw |]. rewrite Hl. do 3 f_equal. lia.
Qed.

End RatesStore.

Section FiatStore.

Import ratesStore.

Lemma sameValue_true (a b : Value) : sameValue a b = true <-> a = b.
Proof. unfold sameValue. apply bool_decide_eq_true. Qed.

Lemma sameValue_refl (a : Value) : sameValue a a = true.
Proof. apply sameValue_true. reflexivity. Qed.

Lemma indexOf_nonneg (l : list Value) (x : Value) : In x l -> 0 <= indexOf l x.
Proof.
  induction l as [|y l IH]; [contradiction |]. intros [->|Hin]; simpl.
  - rewrite sameValue_refl. lia.
  - destruct (sameValue y x); [lia |]. specialize (IH Hin).
    destruct (indexOf l x <? 0)%Z eqn:E; [apply Z.ltb_lt in E; lia | lia].
Qed.

(** In a list without duplicates [indexOf] finds the position of every
    element. *)
Lemma indexOf_lookup (l : list Value) (i : nat) (x : Value) :
  NoDup l -> l !! i = Some x -> indexOf l x = Z.of_nat i.
Proof.
  revert i. induction l as [|y l IH]; intros i Hnd Hi; [discriminate |].
  apply NoDup_cons in Hnd as [Hy Hnd]. destruct i as [|i]; simpl in *.
  - injection Hi as ->. rewrite sameValue_refl. reflexivity.
  - assert (Hne : sameValue y x = false).
    { destruct (sameValue y x) eqn:E; [| reflexivity].
      apply sameValue_true in E. subst y. exfalso. apply Hy.
      apply list_elem_of_lookup. eauto. }
    rewrite Hne, (IH i Hnd Hi).
    destruct (Z.of_nat i <? 0)%Z eqn:E; [apply Z.ltb_lt in E; lia | lia].
Qed.

Lemma includes_elem (l : list Value) (x : Value) : x ∈ l -> includes l x = true.
Proof.
  intros Hin. unfold includes. apply existsb_exists. exists x.
  split; [apply list_elem_of_In, Hin | apply sameValue_refl].
Qed.

(** One rotation from an active code that stands at position [i]. *)
Lemma rotateFiat_step (fe : Frontend) (i : nat) :
  NoDup (selected (state fe)) ->
  selected (state fe) !! i = Some (active (state fe)) ->
  exists next,
    selected (state fe) !! (S i mod length (selected (state fe)))%nat = Some next
    /\ rotateFiat fe
       = mkFrontend (setActive next (state fe))
                    (effects fe ++ [SetConfigMainFiat next])
                    (pending fe).
Proof.
  intros Hnd Hi. pose proof (lookup_lt_Some _ _ _ Hi) as Hlt.
  assert (Hmod : (S i mod length (selected (state fe)) < length (selected (state fe)))%nat)
    by (apply Nat.mod_upper_bound; lia).
  destruct (lookup_lt_is_Some_2 _ _ Hmod) as [next Hnext].
  exists next. split; [exact Hnext |].
  unfold rotateFiat. rewrite (indexOf_lookup _ _ _ Hnd Hi).
  destruct (length (selected (state fe))) as [|n] eqn:Hlen; [lia |].
  unfold remainder, element.
  replace (Z.to_nat ((Z.of_nat i + 1) mod Z.of_nat (S n))) with (S i mod S n)%nat.
  - rewrite Hnext. simpl default. unfold setActiveFiat.
    rewrite includes_elem by (apply list_elem_of_lookup; eauto). reflexivity.
  - replace (Z.of_nat i + 1) with (Z.of_nat (S i)) by lia.
    rewrite <- Nat2Z.inj_mod, Nat2Z.id. reflexivity.
Qed.

(** X19: with no code selected twice and the active code among the
    selected ones, at position [i], [k] calls of [rotateFiat] make the code at
    position [(i + k) mod n] active, where [n] codes are selected; they
    leave the selection and the waiting updates alone, and what they add to
    the effects is one [mainFiat] setting each and nothing else: in order,
    that of the code made active by the first call, by the second, and so
    on. After [n] calls the store is as it was. *)
Theorem rotateFiat_cycles (fe : Frontend) (i : nat) :
  NoDup (selected (state fe)) ->
  selected (state fe) !! i = Some (active (state fe)) ->
  (forall k,
     selected (state fe) !! ((i + k) mod length (selected (state fe)))%nat
     = Some (active (state (Nat.iter k rotateFiat fe)))
     /\ selected (state (Nat.iter k rotateFiat fe)) = selected (state fe)
     /\ rates (state (Nat.iter k rotateFiat fe)) = rates (state fe)
     /\ pending (Nat.iter k rotateFiat fe) = pending fe
     /\ effects (Nat.iter k rotateFiat fe)
        = (effects fe
           ++ map (fun j => SetConfigMainFiat (active (state (Nat.iter j rotateFiat fe))))
                  (seq 1 k))%list
     /\ length (effects (Nat.iter k rotateFiat fe)) = (length (effects fe) + k)%nat)
  /\ state (Nat.iter (length (selected (state fe))) rotateFiat fe) = state fe.
Proof.
  intros Hnd Hi. pose proof (lookup_lt_Some _ _ _ Hi) as Hlt.
  assert (Hall : forall k,
     selected (state fe) !! ((i + k) mod length (selected (state fe)))%nat
     = Some (active (state (Nat.iter k rotateFiat fe)))
     /\ selected (state (Nat.iter k rotateFiat fe)) = selected (state fe)
     /\ rates (state (Nat.iter k rotateFiat fe)) = rates (state fe)
     /\ pending (Nat.iter k rotateFiat fe) = pending fe
     /\ effects (Nat.iter k rotateFiat fe)
        = (effects fe
           ++ map (fun j => SetConfigMainFiat (active (state (Nat.iter j rotateFiat fe))))
                  (seq 1 k))%list
     /\ length (effects (Nat.iter k rotateFiat fe)) = (length (effects fe) + k)%nat).
  { induction k as [|k (Hact & Hsel & Hrates & Hpend & Hout & Heff)].
    - simpl. rewrite Nat.add_0_r, Nat.mod_small, app_nil_r by lia.
      repeat split; [exact Hi | lia].
    - cbn [Nat.iter nat_rect]. fold (Nat.iter k rotateFiat fe).
      destruct (rotateFiat_step (Nat.iter k rotateFiat fe)
                  ((i + k) mod length (selected (state fe)))%nat)
        as (next & Hnext & Hrun).
      + rewrite Hsel. exact Hnd.
      + rewrite Hsel. exact Hact.
      + rewrite Hrun. cbn [state effects pending setActive active selected rates].
        rewrite Hsel in Hnext.
        split; [| split; [exact Hsel | split; [exact Hrates | split; [exact Hpend | split]]]].
        * rewrite <- Hnext. f_equal.
          replace (i + S k)%nat with ((i + k) + 1)%nat by lia.
          rewrite <- (Nat.add_1_r ((i + k) mod length (selected (state fe)))).
          rewrite Nat.Div0.add_mod_idemp_l. reflexivity.
        * rewrite Hout, seq_S, map_app, app_assoc. cbn [map Nat.add].
          cbn [Nat.iter nat_rect]. fold (Nat.iter k rotateFiat fe).
          rewrite Hrun. reflexivity.
        * rewrite length_app, Heff. simpl. lia. }
  split; [exact Hall |].
  destruct (Hall (length (selected (state fe)))) as (Hact & Hsel & Hrates & _).
  replace ((i + length (selected (state fe))) mod length (selected (state fe)))%nat
    with i in Hact.
  - rewrite Hi in Hact. injection Hact as Hact.
    destruct (state (Nat.iter (length (selected (state fe))) rotateFiat fe)) as [r a sl].
    destruct (state fe) as [r0 a0 sl0]. simpl in *. subst. reflexivity.
  - rewrite <- Nat.Div0.add_mod_idemp_r, Nat.Div0.mod_same, Nat.add_0_r, Nat.mod_small; lia.
Qed.

Lemma rotateFiat_cycles_witness :
  state (Nat.iter 3 rotateFiat sampleFrontend) = state sampleFrontend.
Proof.
  assert (Hnd : NoDup (selected (state sampleFrontend))).
  { apply (bool_decide_unpack _). vm_compute. exact I. }
  apply (proj2 (rotateFiat_cycles sampleFrontend 1 Hnd eq_refl)).
Defined.

Example rotateFiat_three_times :
  effects (Nat.iter 3 rotateFiat sampleFrontend)
  = [SetConfigMainFiat (Str "CHF"); SetConfigMainFiat (Str "USD"); SetConfigMainFiat (Str "EUR")].
Proof. reflexivity. Qed.

Example rotateFiat_without_active :
  active (state (rotateFiat
    (mkFrontend (mkSharedProps None (Str "JPY") [Str "USD"; Str "EUR"]) [] [])))
  = Str "USD"
  /\ rotateFiat (mkFrontend (mkSharedProps None (Str "CHF") []) [] [])
     = mkFrontend (mkSharedProps None Undefined [])
                  [SetConfigFiatList [Undefined]; SetConfigMainFiat Undefined]
                  [[Undefined]].
Proof. split; reflexivity. Qed.

Lemma filter_other (equal : Value -> Value -> bool) (fiat : Value) (l : list Value) :
  (forall a b, equal a b = true <-> a = b) ->
  ~ In fiat l ->
  List.filter (fun item => negb (equal item fiat)) l = l.
Proof.
  intros Heq. induction l as [|x l IH]; intros Hnot; [reflexivity |]. simpl.
  destruct (equal x fiat) eqn:E.
  - apply Heq in E. subst x. exfalso. apply Hnot. left. reflexivity.
  - simpl. rewrite IH; [reflexivity |]. intros Hin. apply Hnot. right. exact Hin.
Qed.

(** X20: with [equal] deciding equality and nothing waiting, selecting a
    code that is not yet selected and unselecting it again, each followed by
    the resolution of its [setConfig], leaves the selection as it was; the
    configuration has been written twice and the accounts reinitialized
    twice. *)
Theorem select_then_unselect (equal : Value -> Value -> bool) (fiat : Value) (fe : Frontend) :
  (forall a b, equal a b = true <-> a = b) ->
  ~ In fiat (selected (state fe)) ->
  pending fe = [] ->
  let fe1 := resolve 0 (selectFiat fiat fe) in
  let fe2 := resolve 0 (unselectFiat equal fiat fe1) in
  selected (state fe1) = (selected (state fe) ++ [fiat])%list
  /\ state fe2 = state fe
  /\ pending fe2 = []
  /\ effects fe2
     = (effects fe ++ [SetConfigFiatList (selected (state fe) ++ [fiat]);
                       ApiPost "accounts/reinitialize";
                       SetConfigFiatList (selected (state fe));
                       ApiPost "accounts/reinitialize"])%list.
Proof.
  intros Heq Hnot Hpend fe1 fe2. subst fe2 fe1.
  destruct fe as [[r a sl] eff pend]. simpl in *. subst pend.
  unfold resolve, selectFiat, unselectFiat. simpl.
  rewrite List.filter_app, (filter_other equal fiat sl Heq Hnot). simpl.
  assert (Hself : equal fiat fiat = true) by (apply Heq; reflexivity).
  rewrite Hself. simpl. rewrite app_nil_r, <- !app_assoc. repeat split.
Qed.

Lemma select_then_unselect_witness :
  state (resolve 0 (unselectFiat sameValue (Str "GBP")
                      (resolve 0 (selectFiat (Str "GBP") sampleFrontend))))
  = state sampleFrontend.
Proof.
  apply (select_then_unselect sameValue (Str "GBP") sampleFrontend sameValue_true).
  - simpl. intros [H|[H|[H|[]]]]; discriminate.
  - reflexivity.
Defined.

(** X21: two selections made before either [setConfig] has resolved each
    extend the selection read at the time of the call, so one of them is
    lost: once both have resolved the selection holds the code whose update
    resolved last and not the other, whatever the order, while the
    configuration written last names the second code. *)
Theorem concurrent_selections_lose_one (a b : Value) (fe : Frontend) :
  pending fe = [] ->
  let both := selectFiat b (selectFiat a fe) in
  selected (state (resolve 0 (resolve 0 both))) = (selected (state fe) ++ [b])%list
  /\ selected (state (resolve 0 (resolve 1 both))) = (selected (state fe) ++ [a])%list
  /\ pending (resolve 0 (resolve 0 both)) = []
  /\ pending (resolve 0 (resolve 1 both)) = []
  /\ last (effects both) = Some (SetConfigFiatList (selected (state fe) ++ [b])).
Proof.
  intros Hpend both. subst both.
  destruct fe as [[r act sl] eff pend]. simpl in *. subst pend.
  unfold resolve, selectFiat. simpl. repeat split. apply last_snoc.
Qed.

Lemma concurrent_selections_lose_one_witness :
  selected (state (resolve 0 (resolve 0
    (selectFiat (Str "JPY") (selectFiat (Str "GBP") sampleFrontend)))))
  = [Str "USD"; Str "EUR"; Str "CHF"; Str "JPY"].
Proof.
  apply (concurrent_selections_lose_one (Str "GBP") (Str "JPY") sampleFrontend eq_refl).
Defined.

(** X22: for each of the seven coins, the coin whose rates [Conversion]
    looks up is one of the three mainnet coins: the testnet coins lose their
    first letter, the mainnet coins stay as they are. *)
Theorem mainnetCoinOf_is_mainnet :
  Forall (fun coin => In (mainnetCoinOf coin) mainnetCoins) coins
  /\ Forall (fun coin => mainnetCoinOf coin = coin) mainnetCoins
  /\ map mainnetCoinOf ["TBTC"; "TLTC"; "TETH"; "RETH"] = ["BTC"; "LTC"; "ETH"; "ETH"].
Proof.
  split; [| split; [| reflexivity]].
  - repeat (apply Forall_cons; split; [vm_compute; tauto |]). apply Forall_nil. exact I.
  - repeat (apply Forall_cons; split; [reflexivity |]). apply Forall_nil. exact I.
Qed.

End FiatStore.

(** ** A further property of the handler registry *)

Lemma mounts_alter (g : SubHandler -> SubHandler) (i : nat) (l : list SubHandler) :
  (forall h, family (g h) = family h /\ mountedAt (g h) = mountedAt h) ->
  map (fun h => (family h, mountedAt h)) (alter g i l)
  = map (fun h => (family h, mountedAt h)) l.
Proof.
  intros Hg. revert i. induction l as [|x l IH]; intros [|i]; try reflexivity.
  - change (alter g 0%nat (x :: l)) with (g x :: l). simpl.
    destruct (Hg x) as [-> ->]. reflexivity.
  - change (alter g (S i) (x :: l)) with (x :: alter g i l). simpl. rewrite IH. reflexivity.
Qed.

Lemma getHandlers_mounts (fk : Family * string) (reg : Registry) :
  exists more, mounts (snd (getHandlers fk reg)) = (mounts reg ++ more)%list.
Proof.
  destruct fk as [[] k]; simpl; unfold getAccountHandlers, getDeviceHandlers;
    match goal with |- context [match ?m !! k with _ => _ end] => destruct (m !! k) end;
    simpl; unfold mounts; simpl;
    first [ exists []; rewrite app_nil_r; reflexivity
          | rewrite map_app; eexists; reflexivity ].
Qed.

Lemma stepRegistry_mounts (c : RegistryCall) (reg : Registry) :
  exists more, mounts (stepRegistry c reg) = (mounts reg ++ more)%list.
Proof.
  assert (Hinit : forall ref entity r, mounts (Init ref entity r) = mounts r).
  { intros. unfold mounts, Init. simpl. apply mounts_alter. intros []; split; reflexivity. }
  assert (Huninit : forall ref r, mounts (Uninit ref r) = mounts r).
  { intros. unfold mounts, Uninit. simpl. apply mounts_alter. intros []; split; reflexivity. }
  destruct c as [k|k|k|k|[k []]|k]; simpl;
    unfold onAccountInit, onAccountUninit, onDeviceInit, onDeviceUninit; simpl.
  - apply (getHandlers_mounts (AccountFamily, k)).
  - apply (getHandlers_mounts (DeviceFamily, k)).
  - destruct (getHandlers_mounts (AccountFamily, k) reg) as [more H]. simpl in H.
    destruct (getAccountHandlers k reg). rewrite Hinit. eauto.
  - destruct (getHandlers_mounts (AccountFamily, k) reg) as [more H]. simpl in H.
    destruct (getAccountHandlers k reg). rewrite Huninit. eauto.
  - destruct (getHandlers_mounts (DeviceFamily, k) reg) as [more H]. simpl in H.
    destruct (getDeviceHandlers k reg). rewrite Hinit. eauto.
  - exists []. rewrite app_nil_r. reflexivity.
  - destruct (getHandlers_mounts (DeviceFamily, k) reg) as [more H]. simpl in H.
    destruct (getDeviceHandlers k reg). rewrite Huninit. eauto.
Qed.

Lemma runRegistry_cons (c : RegistryCall) (cs : list RegistryCall) (reg : Registry) :
  snd (runRegistry (c :: cs) reg) = snd (runRegistry cs (stepRegistry c reg)).
Proof. simpl. destruct (runRegistry cs (stepRegistry c reg)). reflexivity. Qed.

(** X23: nothing is ever evicted from the registry. Whatever calls reach
    it, from whatever registry, every key keeps the reference it had, and
    the route subtrees mounted before are still mounted, in the same order:
    calls only append subtrees, also the "uninit" calls. *)
Theorem registry_only_grows (cs : list RegistryCall) (reg : Registry) :
  (forall f k ref,
     handlersMap f reg !! k = Some ref ->
     handlersMap f (snd (runRegistry cs reg)) !! k = Some ref)
  /\ exists more, mounts (snd (runRegistry cs reg)) = (mounts reg ++ more)%list.
Proof.
  revert reg. induction cs as [|c cs IH]; intros reg.
  - simpl. split; [auto | exists []; rewrite app_nil_r; reflexivity].
  - rewrite runRegistry_cons. destruct (IH (stepRegistry c reg)) as [Hkeep [more Hmore]].
    split.
    + intros f k ref H. apply Hkeep, stepRegistry_keeps, H.
    + destruct (stepRegistry_mounts c reg) as [more0 Hstep].
      exists (more0 ++ more)%list. rewrite Hmore, Hstep, app_assoc. reflexivity.
Qed.

Lemma registry_only_grows_witness :
  handlersMap DeviceFamily
    (snd (runRegistry [DeviceUninit "dev7"; AccountUninit "btc-acct"] afterForeignUninit))
  !! "dev7" = Some 0%nat.
Proof.
  apply (proj1 (registry_only_grows [DeviceUninit "dev7"; AccountUninit "btc-acct"]
                                    afterForeignUninit) DeviceFamily "dev7" 0%nat).
  reflexivity.
Defined.
